(** * funimpute.outliers: outlier detection and handling strategies

    A shallow embedding of [src/funimpute/outliers.py] and the properties
    its specification states about it.

    Numbers.  The Python code computes on doubles.  The values the two
    detectors return (quartiles, bounds, outlier lists) are studied on
    doubles themselves, in the module [Doubles]: IEEE binary64 numbers with
    their rounding, their infinities and NaN.  The selector, the
    orchestrator and the order properties of the detectors only compare
    and count; they are studied on exact rationals together with the
    not-a-number value, which pandas also uses as its missing-value
    marker: there arithmetic is exact, a NaN operand gives NaN, and every
    comparison with NaN is false.

    Failures.  Code that can raise returns in the error monad [py]. *)

From Stdlib Require Import String.
From Stdlib Require Import QArith Qround Qabs ZArith List Bool Arith Lia Lqa.
From Stdlib Require Import Sorting.Sorted Sorting.Permutation.
From Stdlib Require Floats Uint63.
Import ListNotations.
Local Open Scope string_scope.
Local Open Scope list_scope.
Local Open Scope Q_scope.

(** ** Numbers *)

Inductive pyfloat : Type :=
| NaN : pyfloat
| Num : Q -> pyfloat.

Definition Qlt_bool (a b : Q) : bool := negb (Qle_bool b a).

Definition fadd (x y : pyfloat) : pyfloat :=
  match x, y with Num a, Num b => Num (a + b) | _, _ => NaN end.

Definition fsub (x y : pyfloat) : pyfloat :=
  match x, y with Num a, Num b => Num (a - b) | _, _ => NaN end.

Definition fmul (x y : pyfloat) : pyfloat :=
  match x, y with Num a, Num b => Num (a * b) | _, _ => NaN end.

(** [0 / 0] is NaN.  A non-zero numerator over zero would be an infinity,
    which this number model does not carry; the float divisions of the
    module, in the mean and in the z-score, have a zero numerator whenever
    their denominator is zero (lemma [zscore_zero_std_numerators]). *)
Definition fdiv (x y : pyfloat) : pyfloat :=
  match x, y with
  | Num a, Num b => if Qeq_bool b 0 then NaN else Num (a / b)
  | _, _ => NaN
  end.

Definition fabs (x : pyfloat) : pyfloat :=
  match x with Num a => Num (Qabs a) | NaN => NaN end.

(** [x < y], [x > y] and [x == y] on floats: false as soon as one side is NaN. *)
Definition flt (x y : pyfloat) : bool :=
  match x, y with Num a, Num b => Qlt_bool a b | _, _ => false end.

Definition fgt (x y : pyfloat) : bool := flt y x.

Definition fle (x y : pyfloat) : bool :=
  match x, y with Num a, Num b => Qle_bool a b | _, _ => false end.

Definition feq (x y : pyfloat) : bool :=
  match x, y with Num a, Num b => Qeq_bool a b | _, _ => false end.

(** [pd.isna] / [pd.notna] on one entry. *)
Definition isna (x : pyfloat) : bool :=
  match x with NaN => true | Num _ => false end.

Definition notna (x : pyfloat) : bool := negb (isna x).

(** Square root, rounded down to a multiple of [1 / (den * 2^53)]; it is
    exact on squares of rationals, and NaN on negative numbers. *)
Definition Qsqrt (q : Q) : Q :=
  Z.sqrt (Qnum q * Zpos (Qden q) * 2 ^ 106) # (Qden q * 2 ^ 53).

Definition fsqrt (x : pyfloat) : pyfloat :=
  match x with
  | Num a => if Qlt_bool a 0 then NaN else Num (Qsqrt a)
  | NaN => NaN
  end.

(** ** Exceptions *)

Inductive exn : Type :=
| TypeError
| ZeroDivisionError.

Inductive py (A : Type) : Type :=
| Ok : A -> py A
| Raise : exn -> py A.
Arguments Ok {A} _.
Arguments Raise {A} _.

Definition bind {A B : Type} (c : py A) (k : A -> py B) : py B :=
  match c with
  | Ok a => k a
  | Raise e => Raise e
  end.

Notation "x <- c ;; k" := (bind c (fun x => k))
  (at level 61, c at next level, right associativity).
Notation "' pat <- c ;; k" := (bind c (fun x => match x with pat => k end))
  (at level 61, pat pattern, c at next level, right associativity).

(** [a < b] where [a] may be [None]: Python 3 refuses to order [None]
    against a number. *)
Definition lt_dyn (a : option pyfloat) (b : pyfloat) : py bool :=
  match a with
  | Some x => Ok (flt x b)
  | None => Raise TypeError
  end.

Definition gt_dyn (a : option pyfloat) (b : pyfloat) : py bool :=
  match a with
  | Some x => Ok (fgt x b)
  | None => Raise TypeError
  end.

(** [a / b] on integers, which raises on a zero divisor. *)
Definition int_truediv (a b : nat) : py pyfloat :=
  match b with
  | O => Raise ZeroDivisionError
  | S _ => Ok (Num (Z.of_nat a # Pos.of_nat b))
  end.

(** ** Formatted strings

    A rationale is an f-string: literal text with formatted fields.  The
    fields are kept as they are written; [render] turns the whole into a
    string once the two number formats of Python are supplied. *)

Inductive piece : Type :=
| Lit : string -> piece                 (* literal text *)
| Pct1 : pyfloat -> piece               (* {x:.1%} *)
| Val : option pyfloat -> piece         (* {v}, an optional number *)
| Txt : string -> piece.                (* {s}, a string *)

Definition fstring : Type := list piece.

Definition render_piece (fmt_pct : pyfloat -> string)
    (fmt_val : option pyfloat -> string) (p : piece) : string :=
  match p with
  | Lit s => s
  | Pct1 x => fmt_pct x
  | Val v => fmt_val v
  | Txt s => s
  end.

Definition render (fmt_pct : pyfloat -> string)
    (fmt_val : option pyfloat -> string) (f : fstring) : string :=
  String.concat "" (map (render_piece fmt_pct fmt_val) f).

(** ** The records of [funimpute.models] *)

(** Modelled from the spec: the enumeration [OutlierHandling] of
    [models.py], with exactly three variants. *)
Inductive OutlierHandling : Type :=
| LEAVE_AS_IS
| CAP_TO_BOUNDS
| CONVERT_TO_NAN.

(** Modelled from the spec: the record [ColumnMetadata] of [models.py], a
    data-type tag, a unique-identifier flag and optional declared business
    bounds. *)
Record ColumnMetadata : Type := mkColumnMetadata {
  data_type : string;
  unique_flag : bool;
  min_value : option pyfloat;
  max_value : option pyfloat
}.

(** Modelled from the spec: the record [AnalysisConfig] of [models.py],
    with the two thresholds this module reads. *)
Record AnalysisConfig : Type := mkAnalysisConfig {
  iqr_multiplier : pyfloat;
  outlier_threshold : pyfloat
}.

(** Modelled from the spec: the record [OutlierAnalysis] of [models.py],
    with the seven fields [analyze_outliers] fills. *)
Record OutlierAnalysis : Type := mkOutlierAnalysis {
  outlier_count : nat;
  outlier_percentage : pyfloat;
  lower_bound : option pyfloat;
  upper_bound : option pyfloat;
  outlier_values : list pyfloat;
  handling_strategy : OutlierHandling;
  rationale : fstring
}.

(** The dictionary handed to [suggest_outlier_handling].  The keys read
    with [d['...']] are fields; the keys read with [d.get('...')] are
    optional, [None] standing for an absent key as well as for a stored
    [None]. *)
Module Dict.
Record t : Type := mk {
  outlier_count : nat;
  outlier_percentage : pyfloat;
  lower_bound : option pyfloat;
  upper_bound : option pyfloat
}.
End Dict.

Definition is_some {A : Type} (o : option A) : bool :=
  match o with Some _ => true | None => false end.

(** [metadata.data_type in ['integer', 'float']] *)
Definition is_numeric_type (t : string) : bool :=
  String.eqb t "integer" || String.eqb t "float".

(** ** The pandas, numpy and scipy operations the module calls

    A series is the list of its entries in index order; a missing entry
    is NaN. *)

Definition Series : Type := list pyfloat.

(** [series.dropna()] *)
Definition dropna (series : Series) : Series := filter notna series.

(** [series.count()]: the number of non-missing entries. *)
Definition count (series : Series) : nat := length (filter notna series).

(** [series[mask]] for a boolean mask of the same length. *)
Fixpoint mask_select {A : Type} (series : list A) (mask : list bool) : list A :=
  match series, mask with
  | x :: series', b :: mask' =>
      if b then x :: mask_select series' mask' else mask_select series' mask'
  | _, _ => []
  end.

(** The numbers held by a series, missing entries skipped. *)
Fixpoint values (series : Series) : list Q :=
  match series with
  | [] => []
  | NaN :: series' => values series'
  | Num a :: series' => a :: values series'
  end.

Fixpoint insert_sorted (x : Q) (l : list Q) : list Q :=
  match l with
  | [] => [x]
  | y :: l' => if Qle_bool x y then x :: l else y :: insert_sorted x l'
  end.

Fixpoint sort (l : list Q) : list Q :=
  match l with
  | [] => []
  | x :: l' => insert_sorted x (sort l')
  end.

(** Linear interpolation between the closest ranks of the sorted values
    [xs] (of which [x0] is one) at the fraction [q]: the position is
    [(n - 1) * q], and the result lies between the order statistics on
    either side of it. *)
Definition interpolate (xs : list Q) (x0 : Q) (q : Q) : Q :=
  let h := inject_Z (Z.of_nat (length xs - 1)) * q in
  let k := Z.to_nat (Qfloor h) in
  let gamma := h - inject_Z (Qfloor h) in
  let a := nth (Nat.min k (length xs - 1)) xs x0 in
  let b := nth (Nat.min (S k) (length xs - 1)) xs x0 in
  a + (b - a) * gamma.

(** [series.quantile(q)] with pandas' default linear interpolation;
    missing entries are skipped, and the quantile of no value is NaN. *)
Definition quantile (series : Series) (q : Q) : pyfloat :=
  match sort (values series) with
  | [] => NaN
  | x0 :: xs => Num (interpolate (x0 :: xs) x0 q)
  end.

Definition fsum (l : list pyfloat) : pyfloat := fold_right fadd (Num 0) l.

Definition fmean (l : list pyfloat) : pyfloat :=
  fdiv (fsum l) (Num (inject_Z (Z.of_nat (length l)))).

(** Population standard deviation ([ddof = 0]). *)
Definition fstd (l : list pyfloat) : pyfloat :=
  let mn := fmean l in
  fsqrt (fmean (map (fun x => fmul (fsub x mn) (fsub x mn)) l)).

(** [scipy.stats.zscore(a)]: [(x - mean) / std] for each entry. *)
Definition zscore (a : list pyfloat) : list pyfloat :=
  let mn := fmean a in
  let std := fstd a in
  map (fun x => fdiv (fsub x mn) std) a.

(** ** The functions of [outliers.py] *)

Definition detect_outliers_iqr (series : Series) (iqr_multiplier : pyfloat)
    : list pyfloat * pyfloat * pyfloat :=
  let clean_series := dropna series in
  if Nat.eqb (length clean_series) 0 then ([], NaN, NaN)
  else
    let q1 := quantile clean_series 0.25 in
    let q3 := quantile clean_series 0.75 in
    let iqr := fsub q3 q1 in
    let lower_bound := fsub q1 (fmul iqr_multiplier iqr) in
    let upper_bound := fadd q3 (fmul iqr_multiplier iqr) in
    let outliers :=
      mask_select clean_series
        (map (fun x => flt x lower_bound || fgt x upper_bound) clean_series) in
    (outliers, lower_bound, upper_bound).

Definition detect_outliers_zscore (series : Series) (threshold : pyfloat)
    : list pyfloat :=
  let clean_series := dropna series in
  if Nat.eqb (length clean_series) 0 then []
  else
    let z_scores := map fabs (zscore clean_series) in
    mask_select clean_series (map (fun z => fgt z threshold) z_scores).

Definition suggest_outlier_handling (outlier_analysis : Dict.t)
    (metadata : ColumnMetadata) (config : AnalysisConfig)
    : py (OutlierHandling * fstring) :=
  let outlier_count := Dict.outlier_count outlier_analysis in
  let outlier_percentage := Dict.outlier_percentage outlier_analysis in
  (* the rules below the business bounds *)
  let low_medium_default :=
    if flt outlier_percentage (outlier_threshold config)
       && is_numeric_type (data_type metadata)
    then
      Ok (CAP_TO_BOUNDS,
          [Lit "Low outlier percentage ("; Pct1 outlier_percentage;
           Lit ") - cap to statistical bounds to preserve data distribution"])
    else if flt outlier_percentage (Num 0.1) then
      Ok (CONVERT_TO_NAN,
          [Lit "Medium outlier percentage ("; Pct1 outlier_percentage;
           Lit ") - convert to NaN for imputation to avoid bias"])
    else
      Ok (LEAVE_AS_IS,
          [Lit "Outlier percentage ("; Pct1 outlier_percentage;
           Lit ") requires manual review"]) in
  if Nat.eqb outlier_count 0 then
    Ok (LEAVE_AS_IS, [Lit "No outliers detected"])
  else if fgt outlier_percentage (Num 0.2) then
    Ok (LEAVE_AS_IS,
        [Lit "High outlier percentage ("; Pct1 outlier_percentage;
         Lit ") suggests potential data distribution issue - investigate before handling"])
  else if unique_flag metadata then
    Ok (LEAVE_AS_IS,
        [Lit "Unique identifier column - outliers should not be modified"])
  else if String.eqb (data_type metadata) "categorical" then
    Ok (LEAVE_AS_IS,
        [Lit "Categorical data - outliers represent valid categories"])
  else if is_some (min_value metadata) || is_some (max_value metadata) then
    let lower_bound := Dict.lower_bound outlier_analysis in
    let upper_bound := Dict.upper_bound outlier_analysis in
    let violates_business_rules := false in
    violates_business_rules <-
      match min_value metadata with
      | Some mn =>
          below <- lt_dyn lower_bound mn ;;
          Ok (if below then true else violates_business_rules)
      | None => Ok violates_business_rules
      end ;;
    violates_business_rules <-
      match max_value metadata with
      | Some mx =>
          above <- gt_dyn upper_bound mx ;;
          Ok (if above then true else violates_business_rules)
      | None => Ok violates_business_rules
      end ;;
    if violates_business_rules then
      Ok (CAP_TO_BOUNDS,
          [Lit "Outliers violate business rules (min: "; Val (min_value metadata);
           Lit ", max: "; Val (max_value metadata); Lit ") - cap to valid range"])
    else low_medium_default
  else low_medium_default.

Definition analyze_outliers (series : Series) (metadata : ColumnMetadata)
    (config : AnalysisConfig) : py OutlierAnalysis :=
  if negb (is_numeric_type (data_type metadata)) then
    Ok {| outlier_count := 0;
          outlier_percentage := Num 0;
          lower_bound := None;
          upper_bound := None;
          outlier_values := [];
          handling_strategy := LEAVE_AS_IS;
          rationale := [Lit "Non-numeric data type ("; Txt (data_type metadata);
                        Lit ") - no outlier detection"] |}
  else
    let '(outlier_values, lower_bound, upper_bound) :=
      detect_outliers_iqr series (iqr_multiplier config) in
    let outlier_count := length outlier_values in
    let total_non_null := count series in
    outlier_percentage <-
      (if Nat.ltb 0 total_non_null
       then int_truediv outlier_count total_non_null
       else Ok (Num 0)) ;;
    let outlier_analysis_dict :=
      {| Dict.outlier_count := outlier_count;
         Dict.outlier_percentage := outlier_percentage;
         Dict.lower_bound := Some lower_bound;
         Dict.upper_bound := Some upper_bound |} in
    '(handling_strategy, rationale) <-
      suggest_outlier_handling outlier_analysis_dict metadata config ;;
    Ok {| outlier_count := outlier_count;
          outlier_percentage := outlier_percentage;
          lower_bound := Some lower_bound;
          upper_bound := Some upper_bound;
          outlier_values := firstn 10 outlier_values;
          handling_strategy := handling_strategy;
          rationale := rationale |}.

(** ** The decision table of the strategy selector, as the specification
    words it

    Eight rules in a fixed priority order; the first rule whose condition
    holds decides. *)

Inductive rule : Type := R1 | R2 | R3 | R4 | R5 | R6 | R7 | R8.

Definition priority_order : list rule := [R1; R2; R3; R4; R5; R6; R7; R8].

Section DecisionTable.
Variables (cnt : nat) (pct lb ub : pyfloat).
Variables (md : ColumnMetadata) (cfg : AnalysisConfig).

(** The statistical lower bound is below the declared minimum, or the
    statistical upper bound is above the declared maximum. *)
Definition business_violation : bool :=
  match min_value md with Some mn => flt lb mn | None => false end
  || match max_value md with Some mx => fgt ub mx | None => false end.

Definition rule_fires (r : rule) : bool :=
  match r with
  | R1 => Nat.eqb cnt 0
  | R2 => fgt pct (Num 0.20)
  | R3 => unique_flag md
  | R4 => String.eqb (data_type md) "categorical"
  | R5 => business_violation
  | R6 => flt pct (outlier_threshold cfg)
          && (String.eqb (data_type md) "integer"
              || String.eqb (data_type md) "float")
  | R7 => flt pct (Num 0.10)
  | R8 => true
  end.

Definition rule_strategy (r : rule) : OutlierHandling :=
  match r with
  | R1 | R2 | R3 | R4 | R8 => LEAVE_AS_IS
  | R5 | R6 => CAP_TO_BOUNDS
  | R7 => CONVERT_TO_NAN
  end.

Definition rule_rationale (r : rule) : fstring :=
  match r with
  | R1 => [Lit "No outliers detected"]
  | R2 => [Lit "High outlier percentage ("; Pct1 pct;
           Lit ") suggests potential data distribution issue - investigate before handling"]
  | R3 => [Lit "Unique identifier column - outliers should not be modified"]
  | R4 => [Lit "Categorical data - outliers represent valid categories"]
  | R5 => [Lit "Outliers violate business rules (min: "; Val (min_value md);
           Lit ", max: "; Val (max_value md); Lit ") - cap to valid range"]
  | R6 => [Lit "Low outlier percentage ("; Pct1 pct;
           Lit ") - cap to statistical bounds to preserve data distribution"]
  | R7 => [Lit "Medium outlier percentage ("; Pct1 pct;
           Lit ") - convert to NaN for imputation to avoid bias"]
  | R8 => [Lit "Outlier percentage ("; Pct1 pct;
           Lit ") requires manual review"]
  end.

(** First match wins. *)
Definition first_match : option rule := find rule_fires priority_order.
End DecisionTable.

(** ** The two detectors on doubles

    The exact numbers above leave out rounding and the infinities.  The
    claims that speak of the values the detectors compute are settled on
    IEEE binary64 numbers instead, Rocq's primitive floats: the arithmetic
    and the comparisons below are the ones of the Python floats, NaN is
    again the missing-value marker. *)

Module Doubles.
Import PrimFloat.
Local Open Scope float_scope.

Definition Series : Type := list float.

(** [pd.notna] on one entry. *)
Definition notna (x : float) : bool := negb (is_nan x).

(** [series.dropna()] *)
Definition dropna (series : Series) : Series := filter notna series.

Fixpoint insert_sorted (x : float) (l : list float) : list float :=
  match l with
  | [] => [x]
  | y :: l' => if x <=? y then x :: l else y :: insert_sorted x l'
  end.

Fixpoint sort (l : list float) : list float :=
  match l with
  | [] => []
  | x :: l' => insert_sorted x (sort l')
  end.

Definition of_Z (z : Z) : float := of_uint63 (Uint63.of_Z z).

(** The double nearest to a rational with small numerator and
    denominator. *)
Definition of_Q (g : Q) : float := of_Z (Qnum g) / of_Z (Zpos (Qden g)).

(** numpy's [_lerp]: [a + (b - a) * t], computed from the other end when
    [t >= 0.5]. *)
Definition lerp (a b t : float) : float :=
  let diff_b_a := b - a in
  if 0.5 <=? t then b - diff_b_a * (1 - t) else a + diff_b_a * t.

(** [series.quantile(q)] with pandas' default linear interpolation, as
    numpy's percentile computes it: the virtual index [(n - 1) * q], the
    entries of the sorted non-missing values on either side of it, and
    their interpolation at the fractional part.  The virtual index is
    taken exactly; in doubles it is exact for the fractions 0.25 and 0.75
    of the module and fewer than 2^51 entries. *)
Definition quantile (series : Series) (q : Q) : float :=
  match sort (dropna series) with
  | [] => nan
  | x0 :: xs =>
      let arr := x0 :: xs in
      let virtual_index := (inject_Z (Z.of_nat (List.length arr - 1)) * q)%Q in
      let previous_index := Z.to_nat (Qfloor virtual_index) in
      let gamma :=
        of_Q (Qred (virtual_index - inject_Z (Qfloor virtual_index))%Q) in
      let previous := nth (Nat.min previous_index (List.length arr - 1)) arr x0 in
      let next := nth (Nat.min (S previous_index) (List.length arr - 1)) arr x0 in
      lerp previous next gamma
  end.

Definition detect_outliers_iqr (series : Series) (iqr_multiplier : float)
    : list float * float * float :=
  let clean_series := dropna series in
  if Nat.eqb (List.length clean_series) 0 then ([], nan, nan)
  else
    let q1 := quantile clean_series 0.25%Q in
    let q3 := quantile clean_series 0.75%Q in
    let iqr := q3 - q1 in
    let lower_bound := q1 - iqr_multiplier * iqr in
    let upper_bound := q3 + iqr_multiplier * iqr in
    let outliers :=
      mask_select clean_series
        (map (fun x => (x <? lower_bound) || (upper_bound <? x)) clean_series) in
    (outliers, lower_bound, upper_bound).

(** In ascending order. *)
Definition ascending (l : list float) : Prop :=
  Sorted (fun a b => (a <=? b) = true) l.

(** [scipy.stats.zscore] is a function of the library; the detector takes
    it as a parameter. *)
Definition detect_outliers_zscore (zscore : list float -> list float)
    (series : Series) (threshold : float) : list float :=
  let clean_series := dropna series in
  if Nat.eqb (List.length clean_series) 0 then []
  else
    let z_scores := map abs (zscore clean_series) in
    mask_select clean_series (map (fun z => threshold <? z) z_scores).

(** All entries equal the first one. *)
Definition isconst (a : list float) : bool :=
  match a with
  | [] => true
  | a0 :: _ => forallb (fun x => x =? a0) a
  end.

Definition mean (a : list float) : float :=
  fold_left add a 0 / of_Z (Z.of_nat (List.length a)).

(** An instance of the parameter: [(x - mean) / std] with the population
    standard deviation, and NaN for every entry of a constant input, as
    scipy answers it.  Sums run from left to right. *)
Definition zscore_isconst (a : list float) : list float :=
  if isconst a then map (fun _ => nan) a
  else
    let mn := mean a in
    let std := sqrt (mean (map (fun x => (x - mn) * (x - mn)) a)) in
    map (fun x => (x - mn) / std) a.

End Doubles.

(** ** Basic facts on the number model *)

Lemma Qlt_bool_iff (a b : Q) : Qlt_bool a b = true <-> a < b.
Proof.
  unfold Qlt_bool. rewrite negb_true_iff.
  split; intro H.
  - apply Qnot_le_lt. intro Hle. apply Qle_bool_iff in Hle. congruence.
  - destruct (Qle_bool b a) eqn:E; [|reflexivity].
    apply Qle_bool_iff in E. exfalso. exact (Qlt_not_le _ _ H E).
Qed.

Lemma Qlt_bool_false_iff (a b : Q) : Qlt_bool a b = false <-> b <= a.
Proof.
  unfold Qlt_bool. rewrite negb_false_iff. apply Qle_bool_iff.
Qed.

Lemma flt_Num (a b : Q) : flt (Num a) (Num b) = true <-> a < b.
Proof. apply Qlt_bool_iff. Qed.

Lemma fgt_Num (a b : Q) : fgt (Num a) (Num b) = true <-> b < a.
Proof. apply Qlt_bool_iff. Qed.

Lemma feq_Num (a b : Q) : feq (Num a) (Num b) = true <-> a == b.
Proof. apply Qeq_bool_iff. Qed.

Lemma fle_not_fgt (x y : pyfloat) : fle x y = true -> fgt x y = false.
Proof.
  destruct x as [|a], y as [|b]; simpl; try discriminate.
  intro H. unfold fgt. simpl. apply Qlt_bool_false_iff. now apply Qle_bool_iff.
Qed.

Lemma notna_Num (x : pyfloat) : notna x = true <-> exists a, x = Num a.
Proof.
  destruct x as [|a]; simpl; split; intro H; try discriminate.
  - destruct H as [a H]. discriminate.
  - now exists a.
  - reflexivity.
Qed.

(** ** Facts on series operations *)

Lemma mask_select_map {A : Type} (f : A -> bool) (l : list A) :
  mask_select l (map f l) = filter f l.
Proof.
  induction l as [|x l IH]; simpl; [reflexivity|].
  rewrite IH. reflexivity.
Qed.

Lemma dropna_In (series : Series) (x : pyfloat) :
  In x (dropna series) <-> In x series /\ exists a, x = Num a.
Proof.
  unfold dropna. rewrite filter_In, notna_Num. reflexivity.
Qed.

Lemma dropna_idempotent (series : Series) : dropna (dropna series) = dropna series.
Proof.
  unfold dropna. induction series as [|x l IH]; simpl; [reflexivity|].
  destruct (notna x) eqn:E; simpl; [rewrite E, IH|]; auto.
Qed.

Lemma count_dropna (series : Series) : count series = List.length (dropna series).
Proof. reflexivity. Qed.

Lemma values_dropna (series : Series) : values (dropna series) = values series.
Proof.
  induction series as [|[|a] l IH]; simpl; [reflexivity|assumption|].
  now rewrite IH.
Qed.

Lemma values_length (series : Series) :
  List.length (values series) = List.length (dropna series).
Proof.
  induction series as [|[|a] l IH]; simpl; auto.
Qed.

Lemma values_In (series : Series) (a : Q) :
  In a (values series) <-> In (Num a) series.
Proof.
  induction series as [|[|b] l IH]; simpl.
  - reflexivity.
  - rewrite IH. split; [auto|]. intros [H|H]; [discriminate|assumption].
  - rewrite IH. split; intros [H|H]; auto.
    + left. now subst.
    + left. now injection H.
Qed.

(** ** Sorting and quantiles *)

Lemma insert_sorted_perm (x : Q) (l : list Q) :
  Permutation (insert_sorted x l) (x :: l).
Proof.
  induction l as [|y l IH]; simpl; [apply Permutation_refl|].
  destruct (Qle_bool x y).
  - apply Permutation_refl.
  - apply perm_trans with (y :: x :: l).
    + now apply perm_skip.
    + apply perm_swap.
Qed.

Lemma sort_perm (l : list Q) : Permutation (sort l) l.
Proof.
  induction l as [|x l IH]; simpl; [apply perm_nil|].
  apply perm_trans with (x :: sort l).
  - apply insert_sorted_perm.
  - now apply perm_skip.
Qed.

Lemma insert_sorted_Sorted (x : Q) (l : list Q) :
  Sorted Qle l -> Sorted Qle (insert_sorted x l).
Proof.
  induction l as [|y l IH]; simpl; intro Hs.
  - repeat constructor.
  - destruct (Qle_bool x y) eqn:E.
    + constructor; [assumption|]. constructor. now apply Qle_bool_iff.
    + assert (Hyx : y <= x).
      { apply Qlt_le_weak, Qlt_bool_iff. unfold Qlt_bool. now rewrite E. }
      inversion Hs as [|? ? Hs' Hhd]; subst.
      constructor; [now apply IH|].
      destruct l as [|z l]; simpl.
      * now constructor.
      * destruct (Qle_bool x z); constructor; [assumption|].
        now inversion Hhd.
Qed.

Lemma sort_Sorted (l : list Q) : Sorted Qle (sort l).
Proof.
  induction l as [|x l IH]; simpl; [constructor|].
  now apply insert_sorted_Sorted.
Qed.

Lemma sort_length (l : list Q) : List.length (sort l) = List.length l.
Proof. apply Permutation_length, sort_perm. Qed.

Lemma sort_Forall (P : Q -> Prop) (l : list Q) : Forall P l -> Forall P (sort l).
Proof.
  intro H. refine (Permutation_Forall _ H).
  apply Permutation_sym, sort_perm.
Qed.

Lemma nth_Forall {A : Type} (P : A -> Prop) (l : list A) (d : A) (n : nat) :
  Forall P l -> P d -> P (nth n l d).
Proof.
  intros Hl Hd. revert n.
  induction Hl as [|x l Hx Hl IH]; intros [|n]; simpl; auto.
Qed.

Lemma dropna_values_nonempty (series : Series) :
  dropna series <> [] -> values series <> [].
Proof.
  intros H Hv. apply H.
  apply length_zero_iff_nil. rewrite <- values_length, Hv. reflexivity.
Qed.

Lemma sort_nonempty (l : list Q) : l <> [] -> sort l <> [].
Proof.
  intros H Hs. apply H. apply length_zero_iff_nil.
  rewrite <- sort_length, Hs. reflexivity.
Qed.

(** On a series with a non-missing entry, a quantile is a number: the
    interpolation between ranks of the sorted non-missing values. *)
Lemma quantile_interpolate (series : Series) (q : Q) :
  dropna series <> [] ->
  exists x0 xs,
    sort (values series) = x0 :: xs /\
    quantile (dropna series) q = Num (interpolate (x0 :: xs) x0 q).
Proof.
  intro H. unfold quantile. rewrite values_dropna.
  destruct (sort (values series)) as [|x0 xs] eqn:E.
  - exfalso. now apply (sort_nonempty (values series) (dropna_values_nonempty _ H)).
  - now exists x0, xs.
Qed.

Lemma interpolate_constant (xs : list Q) (x0 c q : Q) :
  Forall (fun x => x == c) xs -> x0 == c -> interpolate xs x0 q == c.
Proof.
  intros Hxs Hx0. unfold interpolate.
  set (h := inject_Z (Z.of_nat (List.length xs - 1)) * q).
  set (k := Z.to_nat (Qfloor h)).
  assert (Ha := nth_Forall _ xs x0 (Nat.min k (List.length xs - 1)) Hxs Hx0).
  assert (Hb := nth_Forall _ xs x0 (Nat.min (S k) (List.length xs - 1)) Hxs Hx0).
  simpl in Ha, Hb. rewrite Ha, Hb. ring.
Qed.

(** The quantiles of a series whose non-missing entries all equal [c]. *)
Lemma quantile_constant (series : Series) (c q : Q) :
  dropna series <> [] ->
  (forall a, In (Num a) series -> a == c) ->
  exists v, quantile (dropna series) q = Num v /\ v == c.
Proof.
  intros Hne Hall.
  destruct (quantile_interpolate series q Hne) as (x0 & xs & Hs & Hq).
  exists (interpolate (x0 :: xs) x0 q). split; [assumption|].
  assert (HF : Forall (fun x => x == c) (x0 :: xs)).
  { rewrite <- Hs. apply sort_Forall. apply Forall_forall.
    intros a Ha. apply Hall. now apply values_In. }
  apply interpolate_constant; [assumption|]. now inversion HF.
Qed.

(** ** The strategy selector *)

Lemma flt_compat_r (x : pyfloat) (a a' : Q) :
  a == a' -> flt x (Num a) = flt x (Num a').
Proof.
  intro H. destruct x as [|b]; simpl; [reflexivity|].
  unfold Qlt_bool. now rewrite H.
Qed.

Lemma fgt_compat_r (x : pyfloat) (a a' : Q) :
  a == a' -> fgt x (Num a) = fgt x (Num a').
Proof.
  intro H. unfold fgt. destruct x as [|b]; simpl; [reflexivity|].
  unfold Qlt_bool. now rewrite H.
Qed.

(** The table always selects a rule: the last one has no condition. *)
Lemma first_match_total
    (cnt : nat) (pct lb ub : pyfloat) (md : ColumnMetadata) (cfg : AnalysisConfig) :
  exists r, first_match cnt pct lb ub md cfg = Some r.
Proof.
  unfold first_match, priority_order. cbn [find].
  repeat match goal with
         | |- context [if rule_fires ?a ?b ?c ?d ?e ?f ?r then _ else _] =>
             destruct (rule_fires a b c d e f r) eqn:?; [eexists; reflexivity|]
         end.
  discriminate.
Qed.

(** The selector, on a dictionary that holds both bounds, computes what
    the decision table selects. *)
Lemma selector_refines_table
    (cnt : nat) (pct lb ub : pyfloat) (md : ColumnMetadata) (cfg : AnalysisConfig) :
  exists r : rule,
    first_match cnt pct lb ub md cfg = Some r /\
    suggest_outlier_handling (Dict.mk cnt pct (Some lb) (Some ub)) md cfg
      = Ok (rule_strategy r, rule_rationale pct md r).
Proof.
  destruct md as [dt uf [mn|] [mx|]];
    unfold first_match, priority_order, suggest_outlier_handling, rule_fires,
      business_violation, is_numeric_type;
    cbn [find Dict.outlier_count Dict.outlier_percentage Dict.lower_bound
         Dict.upper_bound lt_dyn gt_dyn bind data_type unique_flag min_value
         max_value is_some orb];
    rewrite (fgt_compat_r pct 0.20 0.2) by reflexivity;
    rewrite (flt_compat_r pct 0.10 0.1) by reflexivity;
    (destruct (Nat.eqb cnt 0); [exists R1; split; reflexivity|]);
    (destruct (fgt pct (Num 0.2)); [exists R2; split; reflexivity|]);
    (destruct uf; [exists R3; split; reflexivity|]);
    (destruct (String.eqb dt "categorical"); [exists R4; split; reflexivity|]);
    try destruct (flt lb mn); try destruct (fgt ub mx); cbn [orb];
    try (exists R5; split; reflexivity);
    (destruct (flt pct (outlier_threshold cfg)
               && (String.eqb dt "integer" || String.eqb dt "float"))%bool;
       [exists R6; split; reflexivity|]);
    (destruct (flt pct (Num 0.1)); [exists R7; split; reflexivity|]);
    exists R8; split; reflexivity.
Qed.

(** C1. For every input tuple (outlier_count, outlier_percentage,
    lower_bound, upper_bound), metadata and configuration, the selector
    returns the one (strategy, rationale) pair of the first rule, in the
    priority order of the eight rules, whose condition holds: count 0,
    leave as is; percentage above 0.20, leave as is; unique identifier,
    leave as is; categorical, leave as is; business bound violated, cap to
    bounds; percentage below the threshold on an integer or float column,
    cap to bounds; percentage below 0.10, convert to missing; otherwise
    leave as is. *)
Theorem suggest_outlier_handling_first_match
    (cnt : nat) (pct lb ub : pyfloat) (md : ColumnMetadata) (cfg : AnalysisConfig) :
  exists r : rule,
    In r priority_order /\
    rule_fires cnt pct lb ub md cfg r = true /\
    first_match cnt pct lb ub md cfg = Some r /\
    suggest_outlier_handling (Dict.mk cnt pct (Some lb) (Some ub)) md cfg
      = Ok (rule_strategy r, rule_rationale pct md r).
Proof.
  destruct (selector_refines_table cnt pct lb ub md cfg) as (r & Hr & Hs).
  exists r. destruct (find_some _ _ Hr) as [Hin Hfires].
  repeat split; assumption.
Qed.

Lemma selector_total_with_bounds
    (cnt : nat) (pct lb ub : pyfloat) (md : ColumnMetadata) (cfg : AnalysisConfig) :
  exists strategy rationale,
    suggest_outlier_handling (Dict.mk cnt pct (Some lb) (Some ub)) md cfg
      = Ok (strategy, rationale).
Proof.
  destruct (selector_refines_table cnt pct lb ub md cfg) as (r & _ & Hs).
  eauto.
Qed.

(** A dictionary without the lower bound, on a column with a declared
    minimum, makes the comparison of rule 5 raise. *)
Example selector_missing_bound_raises :
  suggest_outlier_handling (Dict.mk 3 (Num 0.1) None (Some (Num 50)))
    (mkColumnMetadata "float" false (Some (Num 0)) None)
    (mkAnalysisConfig (Num 1.5) (Num 0.05))
  = Raise TypeError.
Proof. reflexivity. Qed.

Lemma selector_zero_count (d : Dict.t) (md : ColumnMetadata) (cfg : AnalysisConfig) :
  Dict.outlier_count d = 0%nat ->
  suggest_outlier_handling d md cfg = Ok (LEAVE_AS_IS, [Lit "No outliers detected"]).
Proof.
  intro H. unfold suggest_outlier_handling. now rewrite H.
Qed.

(** C6, amended. When a declared business minimum exceeds the statistical
    lower bound, or a declared business maximum is below the statistical
    upper bound, the selector returns cap-to-bounds with a rationale naming
    both declared bounds, provided the outlier count is positive, the
    percentage is at most 20%, and the column is neither a unique
    identifier nor categorical; so it does for the declared bounds
    [0, 100] and the statistical lower bound -10. *)
Theorem business_violation_caps
    (d : Dict.t) (md : ColumnMetadata) (cfg : AnalysisConfig) (lb ub : pyfloat) :
  (0 < Dict.outlier_count d)%nat ->
  fle (Dict.outlier_percentage d) (Num 0.2) = true ->
  unique_flag md = false ->
  data_type md <> "categorical" ->
  Dict.lower_bound d = Some lb ->
  Dict.upper_bound d = Some ub ->
  (exists mn, min_value md = Some mn /\ flt lb mn = true) \/
  (exists mx, max_value md = Some mx /\ fgt ub mx = true) ->
  exists text,
    suggest_outlier_handling d md cfg = Ok (CAP_TO_BOUNDS, text) /\
    text = [Lit "Outliers violate business rules (min: "; Val (min_value md);
            Lit ", max: "; Val (max_value md); Lit ") - cap to valid range"] /\
    (forall fmt_pct fmt_val,
        render fmt_pct fmt_val text
        = ("Outliers violate business rules (min: " ++ fmt_val (min_value md)
           ++ ", max: " ++ fmt_val (max_value md) ++ ") - cap to valid range")%string).
Proof.
  intros Hcnt Hpct Huniq Hcat Hlb Hub Hviol.
  eexists. split; [|split; [reflexivity|reflexivity]].
  unfold suggest_outlier_handling.
  destruct (Nat.eqb_neq (Dict.outlier_count d) 0) as [_ Hne].
  rewrite Hne by lia.
  rewrite (fle_not_fgt _ _ Hpct), Huniq.
  destruct (String.eqb_neq (data_type md) "categorical") as [_ Hc].
  rewrite (Hc Hcat), Hlb, Hub.
  destruct Hviol as [(mn & Hmn & Hlt)|(mx & Hmx & Hgt)].
  - rewrite Hmn. cbn [is_some orb lt_dyn bind]. rewrite Hlt.
    destruct (max_value md) as [mx|]; cbn [gt_dyn bind];
      [destruct (fgt ub mx)|]; reflexivity.
  - rewrite Hmx. cbn [is_some gt_dyn bind]. rewrite Hgt, orb_true_r.
    destruct (min_value md) as [mn|]; cbn [lt_dyn bind];
      [destruct (flt lb mn)|]; reflexivity.
Qed.

Lemma business_violation_caps_witness :
  suggest_outlier_handling
    (Dict.mk 3 (Num 0.1) (Some (Num (-10))) (Some (Num 50)))
    (mkColumnMetadata "float" false (Some (Num 0)) (Some (Num 100)))
    (mkAnalysisConfig (Num 1.5) (Num 0.05))
  = Ok (CAP_TO_BOUNDS,
        [Lit "Outliers violate business rules (min: "; Val (Some (Num 0));
         Lit ", max: "; Val (Some (Num 100)); Lit ") - cap to valid range"]).
Proof.
  destruct (business_violation_caps
           (Dict.mk 3 (Num 0.1) (Some (Num (-10))) (Some (Num 50)))
           (mkColumnMetadata "float" false (Some (Num 0)) (Some (Num 100)))
           (mkAnalysisConfig (Num 1.5) (Num 0.05))
           (Num (-10)) (Num 50)) as (text & Hsel & Htext & _).
  - simpl. lia.
  - reflexivity.
  - reflexivity.
  - discriminate.
  - reflexivity.
  - reflexivity.
  - left. exists (Num 0). split; reflexivity.
  - rewrite Hsel, Htext. reflexivity.
Defined.

(** C6 as stated fails: with declared bounds [0, 100], a statistical lower
    bound of -10, a positive count and a percentage of at most 20%, a
    unique-identifier column is left as is, not capped. *)
Lemma business_violation_unique_column_not_capped :
  ~ (forall (d : Dict.t) (md : ColumnMetadata) (cfg : AnalysisConfig),
        min_value md = Some (Num 0) ->
        max_value md = Some (Num 100) ->
        Dict.lower_bound d = Some (Num (-10)) ->
        (0 < Dict.outlier_count d)%nat ->
        fle (Dict.outlier_percentage d) (Num 0.2) = true ->
        exists rationale,
          suggest_outlier_handling d md cfg = Ok (CAP_TO_BOUNDS, rationale)).
Proof.
  intro H.
  destruct (H (Dict.mk 3 (Num 0.1) (Some (Num (-10))) (Some (Num 50)))
              (mkColumnMetadata "integer" true (Some (Num 0)) (Some (Num 100)))
              (mkAnalysisConfig (Num 1.5) (Num 0.05)))
    as [rationale Hr]; try reflexivity.
  - simpl. lia.
  - discriminate Hr.
Qed.

(** C7. On a unique-identifier column the selected strategy is always
    leave-as-is, whatever the count, the percentage, the bounds and the
    declared business bounds are. *)
Theorem unique_identifier_left_as_is
    (d : Dict.t) (md : ColumnMetadata) (cfg : AnalysisConfig) :
  unique_flag md = true ->
  exists rationale,
    suggest_outlier_handling d md cfg = Ok (LEAVE_AS_IS, rationale).
Proof.
  intro Huniq. unfold suggest_outlier_handling. rewrite Huniq.
  destruct (Nat.eqb (Dict.outlier_count d) 0); [eauto|].
  destruct (fgt (Dict.outlier_percentage d) (Num 0.2)); eauto.
Qed.

Lemma unique_identifier_left_as_is_witness :
  exists rationale,
    suggest_outlier_handling
      (Dict.mk 3 (Num 0.1) (Some (Num (-10))) (Some (Num 150)))
      (mkColumnMetadata "integer" true (Some (Num 0)) (Some (Num 100)))
      (mkAnalysisConfig (Num 1.5) (Num 0.05))
    = Ok (LEAVE_AS_IS, rationale).
Proof.
  apply (unique_identifier_left_as_is
           (Dict.mk 3 (Num 0.1) (Some (Num (-10))) (Some (Num 150)))
           (mkColumnMetadata "integer" true (Some (Num 0)) (Some (Num 100)))
           (mkAnalysisConfig (Num 1.5) (Num 0.05))).
  reflexivity.
Defined.

(** ** The orchestrator *)

Lemma is_numeric_type_false (t : string) :
  t <> "integer" -> t <> "float" -> is_numeric_type t = false.
Proof.
  intros Hi Hf. unfold is_numeric_type.
  destruct (String.eqb_neq t "integer") as [_ H1].
  destruct (String.eqb_neq t "float") as [_ H2].
  now rewrite (H1 Hi), (H2 Hf).
Qed.

Lemma is_numeric_type_true (t : string) :
  is_numeric_type t = true <-> t = "integer" \/ t = "float".
Proof.
  unfold is_numeric_type. rewrite orb_true_iff, !String.eqb_eq. reflexivity.
Qed.

(** The percentage the orchestrator computes from a count and the number
    of non-missing entries. *)
Lemma percentage_guarded (cnt total : nat) :
  exists pct,
    (if Nat.ltb 0 total then int_truediv cnt total else Ok (Num 0)) = Ok (Num pct) /\
    (total = 0%nat -> pct = 0) /\
    ((0 < total)%nat ->
     pct == inject_Z (Z.of_nat cnt) / inject_Z (Z.of_nat total)).
Proof.
  destruct total as [|t]; simpl.
  - exists 0. repeat split. intro H. inversion H.
  - exists (Z.of_nat cnt # Pos.of_nat (S t)). repeat split.
    + discriminate.
    + intros _. rewrite Qmake_Qdiv.
      replace (Z.pos (Pos.of_nat (S t))) with (Z.of_nat (S t)) by lia.
      reflexivity.
Qed.

(** What the orchestrator returns on a column declared integer or float. *)
Lemma analyze_outliers_numeric
    (series : Series) (metadata : ColumnMetadata) (config : AnalysisConfig) :
  is_numeric_type (data_type metadata) = true ->
  exists outliers lower upper pct strategy text,
    detect_outliers_iqr series (iqr_multiplier config) = (outliers, lower, upper) /\
    (if Nat.ltb 0 (count series)
     then int_truediv (List.length outliers) (count series)
     else Ok (Num 0)) = Ok (Num pct) /\
    suggest_outlier_handling
      (Dict.mk (List.length outliers) (Num pct) (Some lower) (Some upper))
      metadata config = Ok (strategy, text) /\
    analyze_outliers series metadata config
      = Ok {| outlier_count := List.length outliers;
              outlier_percentage := Num pct;
              lower_bound := Some lower;
              upper_bound := Some upper;
              outlier_values := firstn 10 outliers;
              handling_strategy := strategy;
              rationale := text |}.
Proof.
  intro Hnum. unfold analyze_outliers. rewrite Hnum. cbn [negb].
  destruct (detect_outliers_iqr series (iqr_multiplier config))
    as [[outliers lower] upper].
  destruct (percentage_guarded (List.length outliers) (count series))
    as (pct & Hpct & _).
  destruct (selector_total_with_bounds (List.length outliers) (Num pct)
              lower upper metadata config) as (strategy & text & Hsel).
  exists outliers, lower, upper, pct, strategy, text.
  repeat split; try assumption.
  rewrite Hpct. cbn [bind]. rewrite Hsel. reflexivity.
Qed.

Lemma analyze_outliers_skips
    (series : Series) (metadata : ColumnMetadata) (config : AnalysisConfig) :
  is_numeric_type (data_type metadata) = false ->
  analyze_outliers series metadata config
    = Ok {| outlier_count := 0;
            outlier_percentage := Num 0;
            lower_bound := None;
            upper_bound := None;
            outlier_values := [];
            handling_strategy := LEAVE_AS_IS;
            rationale := [Lit "Non-numeric data type ("; Txt (data_type metadata);
                          Lit ") - no outlier detection"] |}.
Proof.
  intro H. unfold analyze_outliers. now rewrite H.
Qed.

(** C5. When the declared data type is neither integer nor float, the
    orchestrator skips detection: whatever the values of the column, the
    result has count 0, percentage 0.0, both bounds undefined, an empty
    sample, the strategy leave-as-is and a rationale naming the type. *)
Theorem analyze_outliers_non_numeric
    (series : Series) (metadata : ColumnMetadata) (config : AnalysisConfig) :
  data_type metadata <> "integer" ->
  data_type metadata <> "float" ->
  exists r,
    analyze_outliers series metadata config = Ok r /\
    outlier_count r = 0%nat /\
    outlier_percentage r = Num 0 /\
    lower_bound r = None /\
    upper_bound r = None /\
    outlier_values r = [] /\
    handling_strategy r = LEAVE_AS_IS /\
    rationale r = [Lit "Non-numeric data type ("; Txt (data_type metadata);
                   Lit ") - no outlier detection"] /\
    (forall fmt_pct fmt_val,
        render fmt_pct fmt_val (rationale r)
        = ("Non-numeric data type (" ++ data_type metadata
           ++ ") - no outlier detection")%string).
Proof.
  intros Hi Hf. eexists. split.
  - apply analyze_outliers_skips. now apply is_numeric_type_false.
  - repeat split.
Qed.

Lemma analyze_outliers_non_numeric_witness :
  exists r,
    analyze_outliers [Num 1; NaN; Num 1000; Num 2; Num 1; Num 2; Num 1]
      (mkColumnMetadata "categorical" false None None)
      (mkAnalysisConfig (Num 1.5) (Num 0.05)) = Ok r /\
    outlier_count r = 0%nat /\
    outlier_percentage r = Num 0 /\
    lower_bound r = None /\
    upper_bound r = None /\
    outlier_values r = [] /\
    handling_strategy r = LEAVE_AS_IS /\
    rationale r = [Lit "Non-numeric data type ("; Txt "categorical";
                   Lit ") - no outlier detection"] /\
    (forall fmt_pct fmt_val,
        render fmt_pct fmt_val (rationale r)
        = "Non-numeric data type (categorical) - no outlier detection").
Proof.
  apply (analyze_outliers_non_numeric
           [Num 1; NaN; Num 1000; Num 2; Num 1; Num 2; Num 1]
           (mkColumnMetadata "categorical" false None None)
           (mkAnalysisConfig (Num 1.5) (Num 0.05))); discriminate.
Defined.

(** C3. Whatever the input, the orchestrator returns a result, and if its
    outlier count is 0 then its percentage is 0.0 and its strategy is
    leave-as-is. *)
Theorem zero_count_invariant
    (series : Series) (metadata : ColumnMetadata) (config : AnalysisConfig) :
  exists r,
    analyze_outliers series metadata config = Ok r /\
    (outlier_count r = 0%nat ->
     feq (outlier_percentage r) (Num 0) = true /\
     handling_strategy r = LEAVE_AS_IS).
Proof.
  destruct (is_numeric_type (data_type metadata)) eqn:Hnum.
  - destruct (analyze_outliers_numeric series metadata config Hnum)
      as (outliers & lower & upper & pct & strategy & text & _ & Hpct & Hsel & Hres).
    eexists. split; [exact Hres|]. cbn. intro Hzero.
    rewrite Hzero in Hpct, Hsel.
    rewrite selector_zero_count in Hsel by reflexivity.
    injection Hsel as <- _. split; [|reflexivity].
    apply Qeq_bool_iff.
    destruct (count series) as [|t]; cbn in Hpct; injection Hpct as <-; reflexivity.
  - eexists. split; [now apply analyze_outliers_skips|].
    cbn. intros _. split; reflexivity.
Qed.

Lemma zero_count_invariant_witness :
  exists r,
    analyze_outliers [Num 1; Num 2; Num 3; Num 4; Num 5]
      (mkColumnMetadata "integer" false None None)
      (mkAnalysisConfig (Num 1.5) (Num 0.05)) = Ok r /\
    outlier_count r = 0%nat /\
    feq (outlier_percentage r) (Num 0) = true /\
    handling_strategy r = LEAVE_AS_IS.
Proof.
  destruct (zero_count_invariant [Num 1; Num 2; Num 3; Num 4; Num 5]
              (mkColumnMetadata "integer" false None None)
              (mkAnalysisConfig (Num 1.5) (Num 0.05))) as [r [Hr Hinv]].
  exists r. split; [exact Hr|].
  assert (Hc : outlier_count r = 0%nat).
  { vm_compute in Hr. injection Hr as <-. reflexivity. }
  split; [exact Hc|]. exact (Hinv Hc).
Defined.

(** C4. On a column declared integer or float, the result's count is the
    length of the full outlier list of the IQR detector, its percentage is
    that count divided by the number of non-missing entries (0.0 when there
    is none), and its sample is the first ten entries of the full list, in
    order, so of length at most 10; the truncation leaves the count and the
    percentage as they are. *)
Theorem analyze_outliers_count_percentage_sample
    (series : Series) (metadata : ColumnMetadata) (config : AnalysisConfig) :
  data_type metadata = "integer" \/ data_type metadata = "float" ->
  exists r full lower upper pct,
    analyze_outliers series metadata config = Ok r /\
    detect_outliers_iqr series (iqr_multiplier config) = (full, lower, upper) /\
    outlier_count r = List.length full /\
    outlier_percentage r = Num pct /\
    (List.length (dropna series) = 0%nat -> pct = 0) /\
    ((0 < List.length (dropna series))%nat ->
     pct == inject_Z (Z.of_nat (List.length full))
            / inject_Z (Z.of_nat (List.length (dropna series)))) /\
    outlier_values r = firstn 10 full /\
    (List.length (outlier_values r) <= 10)%nat /\
    (List.length (outlier_values r) <= outlier_count r)%nat.
Proof.
  intro Hnum. apply is_numeric_type_true in Hnum.
  destruct (analyze_outliers_numeric series metadata config Hnum)
    as (full & lower & upper & pct & strategy & text & Hdet & Hpct & _ & Hres).
  destruct (percentage_guarded (List.length full) (count series))
    as (pct' & Hpct' & Hzero & Hpos).
  rewrite Hpct in Hpct'. injection Hpct' as <-.
  eexists. exists full, lower, upper, pct.
  split; [exact Hres|].
  cbn [outlier_count outlier_percentage outlier_values].
  repeat split; try assumption.
  - apply firstn_le_length.
  - rewrite length_firstn. apply Nat.le_min_r.
Qed.

Lemma analyze_outliers_count_percentage_sample_witness :
  exists r pct,
    analyze_outliers (repeat (Num 5) 40 ++ repeat (Num 100) 11)
      (mkColumnMetadata "float" false None None)
      (mkAnalysisConfig (Num 1.5) (Num 0.05)) = Ok r /\
    outlier_count r = 11%nat /\
    outlier_percentage r = Num pct /\
    pct == 11 / 51 /\
    outlier_values r = repeat (Num 100) 10.
Proof.
  destruct (analyze_outliers_count_percentage_sample
              (repeat (Num 5) 40 ++ repeat (Num 100) 11)
              (mkColumnMetadata "float" false None None)
              (mkAnalysisConfig (Num 1.5) (Num 0.05)) (or_intror eq_refl))
    as (r & full & lower & upper & pct & Hr & Hdet & Hcnt & Hpct & _ & Hdiv & Hs & _).
  exists r, pct.
  cbn [iqr_multiplier] in Hdet. vm_compute in Hdet. injection Hdet as <- _ _.
  split; [exact Hr|]. split; [exact Hcnt|]. split; [exact Hpct|].
  split; [|exact Hs].
  rewrite Hdiv by (vm_compute; lia). reflexivity.
Defined.

(** C9. No input makes the orchestrator fail; when no entry is left after
    dropping the missing ones, the IQR detector returns no outlier and two
    NaN bounds and the z-score detector no outlier; and on an integer or
    float column with no non-missing entry the orchestrator returns the
    percentage 0.0 instead of dividing by zero. *)
Theorem no_failure_path :
  (forall series metadata config,
      exists r, analyze_outliers series metadata config = Ok r) /\
  (forall series m,
      dropna series = [] -> detect_outliers_iqr series m = ([], NaN, NaN)) /\
  (forall series threshold,
      dropna series = [] -> detect_outliers_zscore series threshold = []) /\
  (forall series metadata config,
      data_type metadata = "integer" \/ data_type metadata = "float" ->
      count series = 0%nat ->
      exists r,
        analyze_outliers series metadata config = Ok r /\
        outlier_count r = 0%nat /\
        outlier_percentage r = Num 0 /\
        lower_bound r = Some NaN /\
        upper_bound r = Some NaN).
Proof.
  split; [|split; [|split]].
  - intros series metadata config.
    destruct (is_numeric_type (data_type metadata)) eqn:Hnum.
    + destruct (analyze_outliers_numeric series metadata config Hnum)
        as (? & ? & ? & ? & ? & ? & _ & _ & _ & Hres).
      eauto.
    + eexists. now apply analyze_outliers_skips.
  - intros series m H. unfold detect_outliers_iqr. now rewrite H.
  - intros series threshold H. unfold detect_outliers_zscore. now rewrite H.
  - intros series metadata config Hnum Hcount.
    apply is_numeric_type_true in Hnum.
    destruct (analyze_outliers_numeric series metadata config Hnum)
      as (outliers & lower & upper & pct & strategy & text & Hdet & Hpct & _ & Hres).
    assert (Hclean : dropna series = []).
    { apply length_zero_iff_nil. exact Hcount. }
    unfold detect_outliers_iqr in Hdet. rewrite Hclean in Hdet. cbn in Hdet.
    injection Hdet as <- <- <-.
    rewrite Hcount in Hpct. cbn in Hpct. injection Hpct as <-.
    eexists. split; [exact Hres|]. repeat split.
Qed.

Lemma no_failure_path_witness :
  (exists r,
      analyze_outliers [NaN; Num 7; Num 7; Num 900]
        (mkColumnMetadata "float" false (Some (Num 0)) None)
        (mkAnalysisConfig (Num 1.5) (Num 0.05)) = Ok r) /\
  detect_outliers_iqr [NaN; NaN] (Num 1.5) = ([], NaN, NaN) /\
  detect_outliers_zscore [NaN; NaN] (Num 3) = [] /\
  (exists r,
      analyze_outliers [NaN; NaN]
        (mkColumnMetadata "float" false (Some (Num 0)) None)
        (mkAnalysisConfig (Num 1.5) (Num 0.05)) = Ok r /\
      outlier_count r = 0%nat /\
      outlier_percentage r = Num 0 /\
      lower_bound r = Some NaN /\
      upper_bound r = Some NaN).
Proof.
  destruct no_failure_path as (Htotal & Hiqr & Hz & Hempty).
  split; [apply Htotal|].
  split; [apply Hiqr; reflexivity|].
  split; [apply Hz; reflexivity|].
  apply Hempty; [right|]; reflexivity.
Defined.

(** ** The IQR detector *)

(** What the detector returns once the quantiles are known. *)
Lemma detect_outliers_iqr_bounds (series : Series) (m q1 q3 : Q) :
  dropna series <> [] ->
  quantile (dropna series) 0.25 = Num q1 ->
  quantile (dropna series) 0.75 = Num q3 ->
  detect_outliers_iqr series (Num m)
    = (filter (fun x => flt x (Num (q1 - m * (q3 - q1)))
                        || fgt x (Num (q3 + m * (q3 - q1))))
         (dropna series),
       Num (q1 - m * (q3 - q1)),
       Num (q3 + m * (q3 - q1))).
Proof.
  intros Hne H1 H3. unfold detect_outliers_iqr.
  destruct (dropna series) as [|x l] eqn:E; [congruence|].
  cbn [List.length Nat.eqb]. rewrite H1, H3. cbn [fsub fmul fadd].
  now rewrite mask_select_map.
Qed.

Lemma flagged_iff (x : pyfloat) (lower upper : Q) :
  flt x (Num lower) || fgt x (Num upper) = true <->
  exists a, x = Num a /\ (a < lower \/ upper < a).
Proof.
  destruct x as [|a]; cbn.
  - split; [discriminate|]. intros (a & H & _). discriminate.
  - rewrite orb_true_iff, !Qlt_bool_iff. split.
    + intro H. now exists a.
    + intros (b & Hb & H). injection Hb as ->. exact H.
Qed.

(** C8. When the IQR is 0, both bounds of the IQR detector equal Q1 and
    every non-missing entry different from Q1 is flagged as an outlier; and
    the IQR of a constant-valued column is 0, with Q1 the constant. *)
Theorem iqr_degenerate (series : Series) (m : Q) :
  dropna series <> [] ->
  (forall q1 q3,
      quantile (dropna series) 0.25 = Num q1 ->
      quantile (dropna series) 0.75 = Num q3 ->
      q3 - q1 == 0 ->
      exists outliers lower upper,
        detect_outliers_iqr series (Num m) = (outliers, Num lower, Num upper) /\
        lower == q1 /\ upper == q1 /\
        (forall a, In (Num a) series -> ~ a == q1 -> In (Num a) outliers)) /\
  (forall c,
      (forall a, In (Num a) series -> a == c) ->
      exists q1 q3,
        quantile (dropna series) 0.25 = Num q1 /\
        quantile (dropna series) 0.75 = Num q3 /\
        q1 == c /\ q3 - q1 == 0).
Proof.
  intro Hne. split.
  - intros q1 q3 H1 H3 Hiqr.
    eexists; eexists; eexists.
    split; [exact (detect_outliers_iqr_bounds series m q1 q3 Hne H1 H3)|].
    assert (Hlo : q1 - m * (q3 - q1) == q1) by (rewrite Hiqr; ring).
    assert (Hhi : q3 + m * (q3 - q1) == q1).
    { rewrite Hiqr. setoid_replace q3 with (q3 - q1 + q1) by ring.
      rewrite Hiqr. ring. }
    split; [exact Hlo|]. split; [exact Hhi|].
    intros a Hin Hdiff. apply filter_In. split.
    + apply dropna_In. split; [assumption|now exists a].
    + apply flagged_iff. exists a. split; [reflexivity|].
      rewrite Hlo, Hhi.
      destruct (Q_dec a q1) as [[Hlt|Hgt]|Heq]; [now left|now right|contradiction].
  - intros c Hall.
    destruct (quantile_constant series c 0.25 Hne Hall) as (q1 & H1 & Hc1).
    destruct (quantile_constant series c 0.75 Hne Hall) as (q3 & H3 & Hc3).
    exists q1, q3. repeat split; try assumption.
    rewrite Hc1, Hc3. ring.
Qed.

Lemma iqr_degenerate_witness :
  (exists lower upper,
      detect_outliers_iqr [Num 5; Num 5; Num 100; Num 5; Num 5] (Num 1.5)
      = ([Num 100], Num lower, Num upper) /\ lower == 5 /\ upper == 5) /\
  (exists q1 q3,
      quantile (dropna [Num 7; NaN; Num 7; Num 7]) 0.25 = Num q1 /\
      quantile (dropna [Num 7; NaN; Num 7; Num 7]) 0.75 = Num q3 /\
      q1 == 7 /\ q3 - q1 == 0).
Proof.
  split.
  - destruct (iqr_degenerate [Num 5; Num 5; Num 100; Num 5; Num 5] 1.5)
      as [Hflag _]; [discriminate|].
    destruct (Hflag 5.00 5.00) as (outliers & lower & upper & Hdet & Hlo & Hhi & Hin).
    + vm_compute. reflexivity.
    + vm_compute. reflexivity.
    + reflexivity.
    + exists lower, upper. split; [|split].
      * rewrite Hdet. vm_compute in Hdet. injection Hdet as <- _ _. reflexivity.
      * exact (Qeq_trans lower 5.00 5 Hlo eq_refl).
      * exact (Qeq_trans upper 5.00 5 Hhi eq_refl).
  - destruct (iqr_degenerate [Num 7; NaN; Num 7; Num 7] 1.5) as [_ Hconst];
      [discriminate|].
    apply (Hconst 7).
    intros a [H|[H|[H|[H|[]]]]]; try discriminate; injection H as <-; reflexivity.
Defined.

(** A column of three entries, two of them equal, is not degenerate: its
    IQR is not 0 and the third entry stays within the bounds. *)
Example short_column_not_degenerate :
  exists lower upper,
    detect_outliers_iqr [Num 5; Num 5; Num 100] (Num 1.5)
    = ([], Num lower, Num upper) /\
    lower == -66.25 /\ upper == 123.75.
Proof.
  eexists. eexists. split; [vm_compute; reflexivity|]. split; reflexivity.
Qed.

(** ** The z-score detector *)

Lemma length_positive_Q {A : Type} (l : list A) :
  l <> [] -> ~ inject_Z (Z.of_nat (List.length l)) == 0.
Proof.
  intros Hne H. destruct l as [|x l]; [congruence|].
  cbn [List.length] in H. rewrite Nat2Z.inj_succ in H.
  unfold Qeq in H. cbn in H. lia.
Qed.

Lemma mask_select_none {A : Type} (l : list A) (mask : list bool) :
  Forall (fun b => b = false) mask -> mask_select l mask = [].
Proof.
  intro H. revert l. induction H as [|b mask -> _ IH]; intros [|x l]; cbn; auto.
Qed.

(** *** Division by zero in the z-score

    The number model has no infinity.  None is needed: when the standard
    deviation is 0, every entry equals the mean, so the only division by
    zero the z-score performs is 0 / 0. *)

Lemma Qsquare_nonneg (d : Q) : 0 <= d * d.
Proof.
  destruct (Qlt_le_dec d 0) as [Hneg|Hpos].
  - setoid_replace (d * d) with ((- d) * (- d)) by ring.
    apply Qmult_le_0_compat; lra.
  - now apply Qmult_le_0_compat.
Qed.

Lemma squares_sum_zero (m : Q) (l : list pyfloat) (t : Q) :
  fsum (map (fun x => fmul (fsub x (Num m)) (fsub x (Num m))) l) = Num t ->
  0 <= t /\ (t == 0 -> forall x, In x l -> exists a, x = Num a /\ a - m == 0).
Proof.
  revert t. induction l as [|x l IH]; intros t H; cbn in H.
  - injection H as <-. split; [apply Qle_refl|]. intros _ x [].
  - destruct x as [|a]; cbn in H; [discriminate|].
    fold (fsum (map (fun x => fmul (fsub x (Num m)) (fsub x (Num m))) l)) in H.
    destruct (fsum (map (fun x => fmul (fsub x (Num m)) (fsub x (Num m))) l))
      as [|t'] eqn:E; [discriminate|].
    injection H as <-.
    destruct (IH t' eq_refl) as [Ht' Hrest].
    pose proof (Qsquare_nonneg (a - m)) as Hsq.
    assert (Hu : 0 <= (a - m) * (a - m) + t' /\
                 ((a - m) * (a - m) + t' == 0 ->
                  (a - m) * (a - m) == 0 /\ t' == 0)).
    { generalize dependent ((a - m) * (a - m)). intros u Hu.
      split; [lra|]. intro Hz. split; apply Qle_antisym; lra. }
    destruct Hu as [Hnonneg Hu].
    split; [exact Hnonneg|].
    intros Hzero x [<-|Hin].
    + exists a. split; [reflexivity|].
      destruct (Qmult_integral _ _ (proj1 (Hu Hzero))); assumption.
    + apply Hrest; [exact (proj2 (Hu Hzero))|assumption].
Qed.

Lemma Qsqrt_zero_inv (v : Q) : Qsqrt v == 0 -> v <= 0.
Proof.
  unfold Qsqrt, Qeq, Qle.
  cbn [Qnum Qden]. rewrite Z.mul_0_l, !Z.mul_1_r. intro H.
  assert (Hn : ~ (0 < Qnum v * Z.pos (Qden v) * 2 ^ 106)%Z).
  { intro Hpos. apply Z.sqrt_pos in Hpos. lia. }
  assert (Hp : (0 < 2 ^ 106)%Z) by reflexivity.
  nia.
Qed.

Lemma fsum_NaN_head (x : pyfloat) (l : list pyfloat) :
  x = NaN -> fsum (x :: l) = NaN.
Proof. now intros ->. Qed.

(** When the standard deviation is the number 0, each numerator
    [x - mean] of the z-score is the number 0. *)
Lemma zscore_zero_std_numerators (l : list pyfloat) (s : Q) :
  fstd l = Num s -> s == 0 ->
  forall x, In x l -> exists d, fsub x (fmean l) = Num d /\ d == 0.
Proof.
  unfold fstd. intros Hstd Hs x Hin.
  destruct (fmean l) as [|m] eqn:Hm.
  - exfalso. destruct l as [|y l]; [contradiction|].
    unfold fmean in Hstd. cbn [map] in Hstd.
    rewrite fsum_NaN_head in Hstd; [discriminate|].
    now destruct y.
  - unfold fmean in Hstd.
    destruct (fsum (map (fun x => fmul (fsub x (Num m)) (fsub x (Num m))) l))
      as [|t] eqn:Hsum; [discriminate|].
    cbn [fdiv] in Hstd. rewrite length_map in Hstd.
    destruct (Qeq_bool (inject_Z (Z.of_nat (List.length l))) 0) eqn:En;
      [discriminate|].
    apply Qeq_bool_neq in En.
    cbn [fsqrt] in Hstd.
    destruct (Qlt_bool (t / inject_Z (Z.of_nat (List.length l))) 0) eqn:Elt;
      [discriminate|].
    injection Hstd as <-.
    apply Qlt_bool_false_iff in Elt. apply Qsqrt_zero_inv in Hs.
    destruct (squares_sum_zero m l t Hsum) as [Ht Hall].
    assert (Hv : t / inject_Z (Z.of_nat (List.length l)) == 0) by lra.
    assert (Ht0 : t == 0).
    { setoid_replace t
        with (t / inject_Z (Z.of_nat (List.length l))
              * inject_Z (Z.of_nat (List.length l))) by (now field).
      rewrite Hv. ring. }
    destruct (Hall Ht0 x Hin) as (a & -> & Ha).
    exists (a - m). split; [reflexivity|assumption].
Qed.

(** * Further properties of the four functions *)

(** ** Order statistics and the quartiles *)

Lemma Sorted_nth_le (l : list Q) (d : Q) (i j : nat) :
  Sorted Qle l -> (i <= j)%nat -> (j < List.length l)%nat ->
  nth i l d <= nth j l d.
Proof.
  intro Hs. apply Sorted_StronglySorted in Hs;
    [|intros x y z; apply Qle_trans].
  revert i j. induction Hs as [|a l Hs IH Hall]; intros i j Hij Hj.
  - cbn in Hj. lia.
  - cbn [List.length] in Hj. destruct i as [|i], j as [|j]; cbn [nth]; try lia.
    + apply Qle_refl.
    + rewrite Forall_forall in Hall. apply Hall, nth_In. lia.
    + apply IH; lia.
Qed.

Lemma Qfloor_fraction (h : Q) :
  0 <= h - inject_Z (Qfloor h) /\ h - inject_Z (Qfloor h) <= 1.
Proof.
  pose proof (Qfloor_le h) as Hlo. pose proof (Qlt_floor h) as Hhi.
  rewrite inject_Z_plus in Hhi. change (inject_Z 1) with 1 in Hhi. split; lra.
Qed.

(** The interpolation lies between the two order statistics it mixes. *)
Lemma interpolate_between (xs : list Q) (x0 q : Q) :
  Sorted Qle xs -> xs <> [] ->
  let k := Z.to_nat (Qfloor (inject_Z (Z.of_nat (List.length xs - 1)) * q)) in
  nth (Nat.min k (List.length xs - 1)) xs x0 <= interpolate xs x0 q /\
  interpolate xs x0 q <= nth (Nat.min (S k) (List.length xs - 1)) xs x0.
Proof.
  intros Hs Hne k. unfold interpolate. fold k.
  assert (Hlen : (0 < List.length xs)%nat).
  { destruct xs; [congruence|cbn; lia]. }
  assert (Hab : nth (Nat.min k (List.length xs - 1)) xs x0
                <= nth (Nat.min (S k) (List.length xs - 1)) xs x0).
  { apply Sorted_nth_le; [assumption|lia|lia]. }
  destruct (Qfloor_fraction (inject_Z (Z.of_nat (List.length xs - 1)) * q))
    as [Hg0 Hg1].
  split; nra.
Qed.

(** On sorted values the interpolation does not decrease with the
    fraction. *)
Lemma interpolate_mono (xs : list Q) (x0 q q' : Q) :
  Sorted Qle xs -> xs <> [] -> 0 <= q -> q <= q' ->
  interpolate xs x0 q <= interpolate xs x0 q'.
Proof.
  intros Hs Hne Hq Hqq'.
  assert (Hlen : (0 < List.length xs)%nat).
  { destruct xs; [congruence|cbn; lia]. }
  set (n1 := inject_Z (Z.of_nat (List.length xs - 1))).
  assert (Hn1 : 0 <= n1).
  { unfold n1. change 0 with (inject_Z 0). rewrite <- Zle_Qle. lia. }
  assert (Hh : n1 * q <= n1 * q') by nra.
  assert (Hh0 : 0 <= n1 * q) by nra.
  pose proof (Qfloor_resp_le _ _ Hh) as Hf.
  pose proof (Qfloor_resp_le _ _ Hh0) as Hf0.
  change (Qfloor 0) with 0%Z in Hf0.
  destruct (Z.eq_dec (Qfloor (n1 * q)) (Qfloor (n1 * q'))) as [Heq|Hneq].
  - unfold interpolate. fold n1. rewrite <- Heq.
    set (k := Z.to_nat (Qfloor (n1 * q))).
    assert (Hab : nth (Nat.min k (List.length xs - 1)) xs x0
                  <= nth (Nat.min (S k) (List.length xs - 1)) xs x0).
    { apply Sorted_nth_le; [assumption|lia|lia]. }
    nra.
  - destruct (interpolate_between xs x0 q Hs Hne) as [_ Hup].
    destruct (interpolate_between xs x0 q' Hs Hne) as [Hlow _].
    fold n1 in Hup, Hlow.
    apply Qle_trans with (2 := Hlow). apply Qle_trans with (1 := Hup).
    apply Sorted_nth_le; [assumption|lia|lia].
Qed.

(** The first quartile of a series is at most its third quartile. *)
Lemma quartiles_ordered (series : Series) :
  dropna series <> [] ->
  exists q1 q3,
    quantile (dropna series) 0.25 = Num q1 /\
    quantile (dropna series) 0.75 = Num q3 /\
    q1 <= q3.
Proof.
  intro Hne.
  destruct (quantile_interpolate series 0.25 Hne) as (x0 & xs & Hs & H1).
  destruct (quantile_interpolate series 0.75 Hne) as (x0' & xs' & Hs' & H3).
  rewrite Hs in Hs'. injection Hs' as <- <-.
  eexists. eexists. split; [exact H1|]. split; [exact H3|].
  apply interpolate_mono.
  - rewrite <- Hs. apply sort_Sorted.
  - discriminate.
  - discriminate.
  - discriminate.
Qed.

(** ** More on the IQR detector *)

(** Whatever the multiplier, the outliers are the entries the two
    returned bounds select among the non-missing ones. *)
Lemma detect_outliers_iqr_filter (series : Series) (m : pyfloat) :
  exists lower upper,
    detect_outliers_iqr series m
    = (filter (fun x => flt x lower || fgt x upper) (dropna series), lower, upper).
Proof.
  unfold detect_outliers_iqr.
  destruct (dropna series) as [|x l] eqn:E.
  - exists NaN, NaN. reflexivity.
  - cbn [List.length Nat.eqb]. rewrite mask_select_map. eauto.
Qed.






Lemma filter_nan_bounds (l : list pyfloat) :
  filter (fun x => flt x NaN || fgt x NaN) l = [].
Proof.
  induction l as [|x l IH]; [reflexivity|].
  cbn [filter]. rewrite IH. now destruct x.
Qed.

(** X3. With a NaN multiplier the IQR detector flags nothing and both
    bounds are NaN, whatever the series holds. *)
Theorem iqr_nan_multiplier (series : Series) :
  detect_outliers_iqr series NaN = ([], NaN, NaN).
Proof.
  unfold detect_outliers_iqr.
  destruct (dropna series) as [|x0 l0] eqn:E; [reflexivity|].
  cbn [List.length Nat.eqb].
  assert (Hne : dropna series <> []) by (rewrite E; discriminate).
  rewrite <- E.
  destruct (quartiles_ordered series Hne) as (q1 & q3 & H1 & H3 & _).
  rewrite H1, H3. cbn [fsub fmul fadd].
  rewrite mask_select_map. now rewrite filter_nan_bounds.
Qed.

(** ** More on the strategy selector *)

(** X4. Whatever the dictionary holds (its bounds may even be absent), the
    selector answers leave-as-is as soon as the percentage is above 20% or
    the column is categorical. *)
Theorem selector_high_percentage_or_categorical
    (d : Dict.t) (md : ColumnMetadata) (cfg : AnalysisConfig) :
  fgt (Dict.outlier_percentage d) (Num 0.2) = true \/
  data_type md = "categorical" ->
  exists text, suggest_outlier_handling d md cfg = Ok (LEAVE_AS_IS, text).
Proof.
  intro H. unfold suggest_outlier_handling.
  destruct (Nat.eqb (Dict.outlier_count d) 0); [eauto|].
  destruct H as [Hpct|Hcat].
  - rewrite Hpct. eauto.
  - destruct (fgt (Dict.outlier_percentage d) (Num 0.2)); [eauto|].
    destruct (unique_flag md); [eauto|].
    rewrite Hcat. cbn. eauto.
Qed.

Lemma selector_high_percentage_or_categorical_witness :
  (exists text,
      suggest_outlier_handling
        (Dict.mk 3 (Num 0.3) None None)
        (mkColumnMetadata "float" false (Some (Num 0)) (Some (Num 100)))
        (mkAnalysisConfig (Num 1.5) (Num 0.05)) = Ok (LEAVE_AS_IS, text)) /\
  (exists text,
      suggest_outlier_handling
        (Dict.mk 3 (Num 0.01) None None)
        (mkColumnMetadata "categorical" false (Some (Num 0)) None)
        (mkAnalysisConfig (Num 1.5) (Num 0.05)) = Ok (LEAVE_AS_IS, text)).
Proof.
  split.
  - apply (selector_high_percentage_or_categorical
             (Dict.mk 3 (Num 0.3) None None)
             (mkColumnMetadata "float" false (Some (Num 0)) (Some (Num 100)))
             (mkAnalysisConfig (Num 1.5) (Num 0.05))).
    left. reflexivity.
  - apply (selector_high_percentage_or_categorical
             (Dict.mk 3 (Num 0.01) None None)
             (mkColumnMetadata "categorical" false (Some (Num 0)) None)
             (mkAnalysisConfig (Num 1.5) (Num 0.05))).
    right. reflexivity.
Defined.

(** X5. The selector raises exactly when the business-bounds rule is
    reached (positive count, percentage not above 20%, neither unique
    identifier nor categorical) and a bound it has to compare with a
    declared business bound is absent from the dictionary; the exception
    is then a TypeError. *)
Theorem selector_raises_iff
    (d : Dict.t) (md : ColumnMetadata) (cfg : AnalysisConfig) (e : exn) :
  suggest_outlier_handling d md cfg = Raise e <->
  e = TypeError /\
  Dict.outlier_count d <> 0%nat /\
  fgt (Dict.outlier_percentage d) (Num 0.2) = false /\
  unique_flag md = false /\
  data_type md <> "categorical" /\
  ((min_value md <> None /\ Dict.lower_bound d = None) \/
   (max_value md <> None /\ Dict.upper_bound d = None)).
Proof.
  unfold suggest_outlier_handling.
  destruct (Nat.eqb_spec (Dict.outlier_count d) 0) as [Hc|Hc].
  { split; [discriminate|]. intros (_ & H & _). contradiction. }
  destruct (fgt (Dict.outlier_percentage d) (Num 0.2)).
  { split; [discriminate|]. intros (_ & _ & H & _). discriminate. }
  destruct (unique_flag md).
  { split; [discriminate|]. intros (_ & _ & _ & H & _). discriminate. }
  destruct (String.eqb_spec (data_type md) "categorical") as [Hcat|Hcat].
  { split; [discriminate|]. intros (_ & _ & _ & _ & H & _). contradiction. }
  destruct (flt (Dict.outlier_percentage d) (outlier_threshold cfg)
            && is_numeric_type (data_type md));
    destruct (flt (Dict.outlier_percentage d) (Num 0.1));
    destruct (min_value md) as [mn|], (max_value md) as [mx|],
      (Dict.lower_bound d) as [lb|], (Dict.upper_bound d) as [ub|];
    cbn [is_some orb lt_dyn gt_dyn bind];
    try destruct (flt lb mn); try destruct (fgt ub mx);
    cbn [orb];
    (split;
     [ intro H; try discriminate H; injection H as <-;
       repeat split; try assumption; try reflexivity;
       solve [left; split; [discriminate|reflexivity]
             |right; split; [discriminate|reflexivity]]
     | intros (-> & _ & _ & _ & _ & [[H1 H2]|[H1 H2]]);
       try discriminate; try congruence; try reflexivity ]).
Qed.

Lemma selector_raises_iff_witness :
  suggest_outlier_handling
    (Dict.mk 3 (Num 0.1) (Some (Num (-10))) None)
    (mkColumnMetadata "float" false (Some (Num 0)) (Some (Num 100)))
    (mkAnalysisConfig (Num 1.5) (Num 0.05)) = Raise TypeError.
Proof.
  apply (selector_raises_iff
           (Dict.mk 3 (Num 0.1) (Some (Num (-10))) None)
           (mkColumnMetadata "float" false (Some (Num 0)) (Some (Num 100)))
           (mkAnalysisConfig (Num 1.5) (Num 0.05)) TypeError).
  repeat split; try discriminate.
  right. split; [discriminate|reflexivity].
Defined.

(** X6. The selector proposes to modify a column (cap or convert) only
    when the count is positive, the percentage is not above 20%, and the
    column is neither a unique identifier nor categorical. *)
Theorem selector_modifies_only_if
    (d : Dict.t) (md : ColumnMetadata) (cfg : AnalysisConfig)
    (strategy : OutlierHandling) (text : fstring) :
  suggest_outlier_handling d md cfg = Ok (strategy, text) ->
  strategy <> LEAVE_AS_IS ->
  Dict.outlier_count d <> 0%nat /\
  fgt (Dict.outlier_percentage d) (Num 0.2) = false /\
  unique_flag md = false /\
  data_type md <> "categorical".
Proof.
  unfold suggest_outlier_handling. intros H Hs.
  destruct (Nat.eqb_spec (Dict.outlier_count d) 0) as [Hc|Hc];
    [injection H as <- _; contradiction|].
  destruct (fgt (Dict.outlier_percentage d) (Num 0.2));
    [injection H as <- _; contradiction|].
  destruct (unique_flag md); [injection H as <- _; contradiction|].
  destruct (String.eqb_spec (data_type md) "categorical") as [Hcat|Hcat];
    [injection H as <- _; contradiction|].
  repeat split; assumption.
Qed.

Lemma selector_modifies_only_if_witness :
  fgt (Num 0.07) (Num 0.2) = false /\
  data_type (mkColumnMetadata "string" false None None) <> "categorical".
Proof.
  destruct (selector_modifies_only_if
              (Dict.mk 7 (Num 0.07) (Some (Num 1)) (Some (Num 9)))
              (mkColumnMetadata "string" false None None)
              (mkAnalysisConfig (Num 1.5) (Num 0.05))
              CONVERT_TO_NAN
              [Lit "Medium outlier percentage ("; Pct1 (Num 0.07);
               Lit ") - convert to NaN for imputation to avoid bias"])
    as (_ & Hpct & _ & Hcat).
  - reflexivity.
  - discriminate.
  - split; assumption.
Defined.

(** X7. Convert-to-missing is returned only when the percentage is below
    10% and the low-percentage rule does not apply (the percentage is not
    below the configured threshold, or the type is neither integer nor
    float); the rationale is then the medium-percentage one. *)
Theorem selector_converts_only_if
    (d : Dict.t) (md : ColumnMetadata) (cfg : AnalysisConfig) (text : fstring) :
  suggest_outlier_handling d md cfg = Ok (CONVERT_TO_NAN, text) ->
  flt (Dict.outlier_percentage d) (Num 0.1) = true /\
  (flt (Dict.outlier_percentage d) (outlier_threshold cfg) = false \/
   is_numeric_type (data_type md) = false) /\
  text = [Lit "Medium outlier percentage ("; Pct1 (Dict.outlier_percentage d);
          Lit ") - convert to NaN for imputation to avoid bias"].
Proof.
  unfold suggest_outlier_handling. intro H.
  destruct (Nat.eqb (Dict.outlier_count d) 0); [discriminate|].
  destruct (fgt (Dict.outlier_percentage d) (Num 0.2)); [discriminate|].
  destruct (unique_flag md); [discriminate|].
  destruct (String.eqb (data_type md) "categorical"); [discriminate|].
  assert (Hrest :
    (if flt (Dict.outlier_percentage d) (outlier_threshold cfg)
        && is_numeric_type (data_type md)
     then Ok (CAP_TO_BOUNDS,
              [Lit "Low outlier percentage ("; Pct1 (Dict.outlier_percentage d);
               Lit ") - cap to statistical bounds to preserve data distribution"])
     else if flt (Dict.outlier_percentage d) (Num 0.1)
          then Ok (CONVERT_TO_NAN,
                   [Lit "Medium outlier percentage (";
                    Pct1 (Dict.outlier_percentage d);
                    Lit ") - convert to NaN for imputation to avoid bias"])
          else Ok (LEAVE_AS_IS,
                   [Lit "Outlier percentage ("; Pct1 (Dict.outlier_percentage d);
                    Lit ") requires manual review"]))
    = Ok (CONVERT_TO_NAN, text)).
  { destruct (is_some (min_value md) || is_some (max_value md)); [|exact H].
    destruct (min_value md) as [mn|], (max_value md) as [mx|],
      (Dict.lower_bound d) as [lb|], (Dict.upper_bound d) as [ub|];
      cbn [lt_dyn gt_dyn bind] in H; try discriminate H;
      try destruct (flt lb mn); try destruct (fgt ub mx);
      try discriminate H; exact H. }
  clear H.
  destruct (flt (Dict.outlier_percentage d) (outlier_threshold cfg)) eqn:Ethr;
    destruct (is_numeric_type (data_type md)) eqn:Enum;
    cbn [andb] in Hrest; try discriminate Hrest;
    (destruct (flt (Dict.outlier_percentage d) (Num 0.1));
     [injection Hrest as <-; repeat split; auto|discriminate Hrest]).
Qed.

Lemma selector_converts_only_if_witness :
  flt (Num 0.07) (Num 0.1) = true /\
  (flt (Num 0.07) (Num 0.05) = false \/ is_numeric_type "float" = false).
Proof.
  destruct (selector_converts_only_if
              (Dict.mk 7 (Num 0.07) (Some (Num 1)) (Some (Num 9)))
              (mkColumnMetadata "float" false None None)
              (mkAnalysisConfig (Num 1.5) (Num 0.05))
              [Lit "Medium outlier percentage ("; Pct1 (Num 0.07);
               Lit ") - convert to NaN for imputation to avoid bias"])
    as (Hlt & Hrule & _).
  - reflexivity.
  - split; assumption.
Defined.

(** ** More on the orchestrator *)

(** The strategy of the orchestrator on a column declared integer or
    float: the selector's table without the categorical rule and without
    the type test of the low-percentage rule, which cannot matter there. *)
Lemma analyze_numeric_strategy
    (series : Series) (metadata : ColumnMetadata) (config : AnalysisConfig) :
  is_numeric_type (data_type metadata) = true ->
  exists r outliers lower upper pct,
    analyze_outliers series metadata config = Ok r /\
    detect_outliers_iqr series (iqr_multiplier config) = (outliers, lower, upper) /\
    outlier_count r = List.length outliers /\
    outlier_percentage r = Num pct /\
    lower_bound r = Some lower /\
    upper_bound r = Some upper /\
    outlier_values r = firstn 10 outliers /\
    handling_strategy r
    = (if Nat.eqb (List.length outliers) 0 then LEAVE_AS_IS
       else if fgt (Num pct) (Num 0.2) then LEAVE_AS_IS
       else if unique_flag metadata then LEAVE_AS_IS
       else if business_violation lower upper metadata then CAP_TO_BOUNDS
       else if flt (Num pct) (outlier_threshold config) then CAP_TO_BOUNDS
       else if flt (Num pct) (Num 0.1) then CONVERT_TO_NAN
       else LEAVE_AS_IS).
Proof.
  intro Hnum.
  destruct (analyze_outliers_numeric series metadata config Hnum)
    as (outliers & lower & upper & pct & strategy & text & Hdet & _ & Hsel & Hres).
  eexists. exists outliers, lower, upper, pct.
  split; [exact Hres|]. split; [exact Hdet|].
  cbn [outlier_count outlier_percentage lower_bound upper_bound outlier_values
       handling_strategy].
  repeat (split; [reflexivity|]).
  assert (Hcat : String.eqb (data_type metadata) "categorical" = false).
  { apply is_numeric_type_true in Hnum. destruct Hnum as [-> | ->]; reflexivity. }
  unfold suggest_outlier_handling in Hsel. unfold business_violation.
  cbn [Dict.outlier_count Dict.outlier_percentage Dict.lower_bound
       Dict.upper_bound lt_dyn gt_dyn bind] in Hsel.
  rewrite Hcat, Hnum, andb_true_r in Hsel.
  destruct (Nat.eqb (List.length outliers) 0); [now injection Hsel as <- _|].
  destruct (fgt (Num pct) (Num 0.2)); [now injection Hsel as <- _|].
  destruct (unique_flag metadata); [now injection Hsel as <- _|].
  destruct (min_value metadata) as [mn|], (max_value metadata) as [mx|];
    cbn [is_some orb] in Hsel;
    try destruct (flt lower mn); try destruct (fgt upper mx);
    cbn [orb]; try (now injection Hsel as <- _);
    (destruct (flt (Num pct) (outlier_threshold config));
     [now injection Hsel as <- _|]);
    (destruct (flt (Num pct) (Num 0.1)); now injection Hsel as <- _).
Qed.

(** X8. On a column declared integer or float the orchestrator's strategy
    follows six conditions in order: count 0, leave; percentage above 20%,
    leave; unique identifier, leave; business bound violated by the
    detector's bounds, cap; percentage below the configured threshold, cap;
    percentage below 10%, convert; otherwise leave.  The categorical rule
    and the type test of the selector play no part. *)
Theorem analyze_outliers_numeric_table
    (series : Series) (metadata : ColumnMetadata) (config : AnalysisConfig) :
  data_type metadata = "integer" \/ data_type metadata = "float" ->
  exists r outliers lower upper pct,
    analyze_outliers series metadata config = Ok r /\
    detect_outliers_iqr series (iqr_multiplier config) = (outliers, lower, upper) /\
    outlier_percentage r = Num pct /\
    handling_strategy r
    = (if Nat.eqb (List.length outliers) 0 then LEAVE_AS_IS
       else if fgt (Num pct) (Num 0.2) then LEAVE_AS_IS
       else if unique_flag metadata then LEAVE_AS_IS
       else if business_violation lower upper metadata then CAP_TO_BOUNDS
       else if flt (Num pct) (outlier_threshold config) then CAP_TO_BOUNDS
       else if flt (Num pct) (Num 0.1) then CONVERT_TO_NAN
       else LEAVE_AS_IS).
Proof.
  intro Hnum. apply is_numeric_type_true in Hnum.
  destruct (analyze_numeric_strategy series metadata config Hnum)
    as (r & outliers & lower & upper & pct & Hr & Hdet & _ & Hpct & _ & _ & _ & Hs).
  exists r, outliers, lower, upper, pct. repeat split; assumption.
Qed.

Lemma analyze_outliers_numeric_table_witness :
  exists r,
    analyze_outliers (repeat (Num 5) 12 ++ [Num 100])
      (mkColumnMetadata "integer" false None None)
      (mkAnalysisConfig (Num 1.5) (Num 0.05)) = Ok r /\
    handling_strategy r = CONVERT_TO_NAN.
Proof.
  destruct (analyze_outliers_numeric_table (repeat (Num 5) 12 ++ [Num 100])
              (mkColumnMetadata "integer" false None None)
              (mkAnalysisConfig (Num 1.5) (Num 0.05)) (or_introl eq_refl))
    as (r & outliers & lower & upper & pct & Hr & Hdet & Hpct & Hs).
  exists r. split; [exact Hr|].
  rewrite Hs. clear Hs.
  vm_compute in Hr. injection Hr as <-. injection Hpct as <-.
  cbn [iqr_multiplier] in Hdet. vm_compute in Hdet. injection Hdet as <- <- <-.
  vm_compute. reflexivity.
Defined.

(** X9. With a configured threshold of at least 10%, the orchestrator
    never answers convert-to-missing. *)
Theorem analyze_never_converts_with_high_threshold
    (series : Series) (metadata : ColumnMetadata) (config : AnalysisConfig)
    (t : Q) (r : OutlierAnalysis) :
  outlier_threshold config = Num t ->
  0.1 <= t ->
  analyze_outliers series metadata config = Ok r ->
  handling_strategy r <> CONVERT_TO_NAN.
Proof.
  intros Hthr Ht Hr.
  destruct (is_numeric_type (data_type metadata)) eqn:Hnum.
  - destruct (analyze_numeric_strategy series metadata config Hnum)
      as (r' & outliers & lower & upper & pct & Hr' & _ & _ & _ & _ & _ & _ & Hs).
    rewrite Hr in Hr'. injection Hr' as <-. rewrite Hs, Hthr.
    destruct (Nat.eqb (List.length outliers) 0); [discriminate|].
    destruct (fgt (Num pct) (Num 0.2)); [discriminate|].
    destruct (unique_flag metadata); [discriminate|].
    destruct (business_violation lower upper metadata); [discriminate|].
    destruct (flt (Num pct) (Num t)) eqn:Elow; [discriminate|].
    destruct (flt (Num pct) (Num 0.1)) eqn:Emed; [|discriminate].
    exfalso. apply flt_Num in Emed.
    assert (Hlt : pct < t) by lra.
    apply flt_Num in Hlt. congruence.
  - rewrite (analyze_outliers_skips series metadata config Hnum) in Hr.
    injection Hr as <-. discriminate.
Qed.

Lemma analyze_never_converts_with_high_threshold_witness :
  exists r,
    analyze_outliers (repeat (Num 5) 12 ++ [Num 100])
      (mkColumnMetadata "integer" false None None)
      (mkAnalysisConfig (Num 1.5) (Num 0.1)) = Ok r /\
    handling_strategy r <> CONVERT_TO_NAN.
Proof.
  eexists. split; [vm_compute; reflexivity|].
  apply (analyze_never_converts_with_high_threshold
           (repeat (Num 5) 12 ++ [Num 100])
           (mkColumnMetadata "integer" false None None)
           (mkAnalysisConfig (Num 1.5) (Num 0.1)) 0.1).
  - reflexivity.
  - discriminate.
  - vm_compute. reflexivity.
Defined.

Lemma detect_outliers_iqr_length (series : Series) (m : pyfloat) :
  (List.length (fst (fst (detect_outliers_iqr series m))) <= count series)%nat.
Proof.
  destruct (detect_outliers_iqr_filter series m) as (lower & upper & ->).
  cbn [fst]. rewrite count_dropna. apply filter_length_le.
Qed.

(** X10. The outlier count of a result never exceeds the number of
    non-missing entries, and its percentage lies between 0 and 1. *)
Theorem analyze_outliers_percentage_range
    (series : Series) (metadata : ColumnMetadata) (config : AnalysisConfig) :
  exists r pct,
    analyze_outliers series metadata config = Ok r /\
    (outlier_count r <= count series)%nat /\
    outlier_percentage r = Num pct /\
    0 <= pct /\ pct <= 1.
Proof.
  destruct (is_numeric_type (data_type metadata)) eqn:Hnum.
  - destruct (analyze_outliers_numeric series metadata config Hnum)
      as (outliers & lower & upper & pct & strategy & text & Hdet & Hpct & _ & Hres).
    pose proof (detect_outliers_iqr_length series (iqr_multiplier config)) as Hlen.
    rewrite Hdet in Hlen. cbn [fst] in Hlen.
    eexists. exists pct. split; [exact Hres|].
    cbn [outlier_count outlier_percentage].
    split; [exact Hlen|]. split; [reflexivity|].
    destruct (percentage_guarded (List.length outliers) (count series))
      as (pct' & Hpct' & Hzero & Hpos).
    rewrite Hpct in Hpct'. injection Hpct' as <-.
    destruct (count series) as [|n] eqn:En.
    + rewrite Hzero by reflexivity. split; discriminate.
    + rewrite Hpos by lia.
      assert (Hn : 0 < inject_Z (Z.of_nat (S n))).
      { change 0 with (inject_Z 0). rewrite <- Zlt_Qlt. lia. }
      split.
      * apply Qle_shift_div_l; [exact Hn|]. rewrite Qmult_0_l.
        change 0 with (inject_Z 0). rewrite <- Zle_Qle. lia.
      * apply Qle_shift_div_r; [exact Hn|]. rewrite Qmult_1_l.
        rewrite <- Zle_Qle. lia.
  - eexists. exists 0. split; [now apply analyze_outliers_skips|].
    cbn [outlier_count outlier_percentage].
    split; [lia|]. split; [reflexivity|]. split; discriminate.
Qed.

(** X11. The three entry points depend on the series only through its
    non-missing entries, in order: two series with the same non-missing
    entries get the same results. *)
Theorem missing_entries_ignored (series series' : Series) :
  dropna series = dropna series' ->
  (forall m, detect_outliers_iqr series m = detect_outliers_iqr series' m) /\
  (forall threshold,
      detect_outliers_zscore series threshold
      = detect_outliers_zscore series' threshold) /\
  (forall metadata config,
      analyze_outliers series metadata config
      = analyze_outliers series' metadata config).
Proof.
  intro H.
  assert (Hiqr : forall m,
             detect_outliers_iqr series m = detect_outliers_iqr series' m).
  { intro m. unfold detect_outliers_iqr. now rewrite H. }
  split; [exact Hiqr|]. split.
  - intro threshold. unfold detect_outliers_zscore. now rewrite H.
  - intros metadata config. unfold analyze_outliers.
    rewrite Hiqr, !count_dropna, H. reflexivity.
Qed.

Lemma missing_entries_ignored_witness :
  analyze_outliers [NaN; Num 1; Num 2; NaN; Num 3; Num 4; Num 50; NaN]
    (mkColumnMetadata "float" false None None)
    (mkAnalysisConfig (Num 1.5) (Num 0.05))
  = analyze_outliers [Num 1; Num 2; Num 3; Num 4; Num 50]
      (mkColumnMetadata "float" false None None)
      (mkAnalysisConfig (Num 1.5) (Num 0.05)).
Proof.
  apply (missing_entries_ignored
           [NaN; Num 1; Num 2; NaN; Num 3; Num 4; Num 50; NaN]
           [Num 1; Num 2; Num 3; Num 4; Num 50]).
  reflexivity.
Defined.

Lemma Ok_inj {A : Type} (a b : A) : Ok a = Ok b -> a = b.
Proof. intro H. now injection H. Qed.

Lemma filter_none {A : Type} (f : A -> bool) (l : list A) :
  (forall x, In x l -> f x = false) -> filter f l = [].
Proof.
  induction l as [|x l IH]; intro H; [reflexivity|].
  cbn [filter]. rewrite (H x (or_introl eq_refl)).
  apply IH. intros y Hy. apply H. now right.
Qed.

Lemma filter_all {A : Type} (f : A -> bool) (l : list A) :
  (forall x, In x l -> f x = true) -> filter f l = l.
Proof.
  induction l as [|x l IH]; intro H; [reflexivity|].
  cbn [filter]. rewrite (H x (or_introl eq_refl)).
  f_equal. apply IH. intros y Hy. apply H. now right.
Qed.

Lemma firstn_incl {A : Type} (n : nat) (l : list A) (x : A) :
  In x (firstn n l) -> In x l.
Proof.
  revert l. induction n as [|n IH]; intros [|y l] H; cbn in H; try contradiction.
  destruct H as [->|H]; [now left|right; now apply IH].
Qed.

(** X12. On a column declared integer or float whose non-missing entries
    all equal [c], with a multiplier that is a number, the orchestrator
    finds no outlier: the count is 0, the sample is empty, both bounds
    equal [c], and the strategy is leave-as-is with the rationale of the
    first rule. *)
Theorem analyze_constant_column
    (series : Series) (metadata : ColumnMetadata) (config : AnalysisConfig)
    (c m : Q) :
  data_type metadata = "integer" \/ data_type metadata = "float" ->
  iqr_multiplier config = Num m ->
  dropna series <> [] ->
  (forall a, In (Num a) series -> a == c) ->
  exists r lower upper,
    analyze_outliers series metadata config = Ok r /\
    outlier_count r = 0%nat /\
    outlier_values r = [] /\
    lower_bound r = Some (Num lower) /\
    upper_bound r = Some (Num upper) /\
    lower == c /\ upper == c /\
    handling_strategy r = LEAVE_AS_IS /\
    rationale r = [Lit "No outliers detected"].
Proof.
  intros Hnum Hm Hne Hall. apply is_numeric_type_true in Hnum.
  destruct (quantile_constant series c 0.25 Hne Hall) as (q1 & H1 & Hc1).
  destruct (quantile_constant series c 0.75 Hne Hall) as (q3 & H3 & Hc3).
  pose proof (detect_outliers_iqr_bounds series m q1 q3 Hne H1 H3) as Hdet.
  assert (Hlo : q1 - m * (q3 - q1) == c) by (rewrite Hc1, Hc3; ring).
  assert (Hhi : q3 + m * (q3 - q1) == c) by (rewrite Hc1, Hc3; ring).
  rewrite filter_none in Hdet.
  2:{ intros x Hx. apply dropna_In in Hx. destruct Hx as [Hin [a ->]].
      specialize (Hall a Hin).
      destruct (flt (Num a) (Num (q1 - m * (q3 - q1)))
                || fgt (Num a) (Num (q3 + m * (q3 - q1)))) eqn:E;
        [|reflexivity].
      apply flagged_iff in E. destruct E as (b & Hb & Hout).
      injection Hb as <-. exfalso. lra. }
  destruct (analyze_outliers_numeric series metadata config Hnum)
    as (outliers & lower & upper & pct & strategy & text & Hdet' & _ & Hsel & Hres).
  rewrite Hm, Hdet in Hdet'. injection Hdet' as <- <- <-.
  rewrite selector_zero_count in Hsel by reflexivity.
  injection Hsel as <- <-.
  eexists. eexists. eexists. split; [exact Hres|].
  cbn [outlier_count outlier_values lower_bound upper_bound handling_strategy
       rationale List.length firstn].
  repeat split; assumption.
Qed.

Lemma analyze_constant_column_witness :
  exists r lower upper,
    analyze_outliers [Num 7; NaN; Num 7; Num 7]
      (mkColumnMetadata "integer" false (Some (Num 10)) None)
      (mkAnalysisConfig (Num 1.5) (Num 0.05)) = Ok r /\
    outlier_count r = 0%nat /\
    lower_bound r = Some (Num lower) /\
    upper_bound r = Some (Num upper) /\
    lower == 7 /\ upper == 7 /\
    handling_strategy r = LEAVE_AS_IS.
Proof.
  destruct (analyze_constant_column [Num 7; NaN; Num 7; Num 7]
              (mkColumnMetadata "integer" false (Some (Num 10)) None)
              (mkAnalysisConfig (Num 1.5) (Num 0.05)) 7 1.5)
    as (r & lower & upper & Hr & Hc & _ & Hlo & Hhi & Hl & Hu & Hs & _).
  - left. reflexivity.
  - reflexivity.
  - discriminate.
  - intros a [H|[H|[H|[H|[]]]]]; try discriminate; injection H as <-; reflexivity.
  - exists r, lower, upper. repeat split; assumption.
Defined.

(** X13. Every entry of the reported sample is a non-missing entry of the
    series lying strictly below the reported lower bound or strictly above
    the reported upper bound; the sample is the whole outlier list when the
    count is at most 10, and has exactly 10 entries otherwise. *)
Theorem analyze_outliers_sample_entries
    (series : Series) (metadata : ColumnMetadata) (config : AnalysisConfig)
    (r : OutlierAnalysis) :
  analyze_outliers series metadata config = Ok r ->
  (forall x, In x (outlier_values r) ->
     In x series /\ notna x = true /\
     exists lower upper,
       lower_bound r = Some lower /\ upper_bound r = Some upper /\
       (flt x lower = true \/ fgt x upper = true)) /\
  List.length (outlier_values r) = Nat.min 10 (outlier_count r).
Proof.
  intro Hr.
  destruct (is_numeric_type (data_type metadata)) eqn:Hnum.
  - destruct (analyze_outliers_numeric series metadata config Hnum)
      as (outliers & lower & upper & pct & strategy & text & Hdet & _ & _ & Hres).
    rewrite Hr in Hres. apply Ok_inj in Hres. subst r.
    cbn [outlier_values outlier_count lower_bound upper_bound].
    split; [|apply length_firstn].
    intros x Hx. apply firstn_incl in Hx.
    destruct (detect_outliers_iqr_filter series (iqr_multiplier config))
      as (lower' & upper' & Hf).
    rewrite Hdet in Hf. injection Hf as -> <- <-.
    apply filter_In in Hx. destruct Hx as [Hin Hflag].
    unfold dropna in Hin. apply filter_In in Hin. destruct Hin as [Hin Hna].
    split; [exact Hin|]. split; [exact Hna|].
    exists lower, upper. split; [reflexivity|]. split; [reflexivity|].
    now apply orb_true_iff.
  - rewrite (analyze_outliers_skips series metadata config Hnum) in Hr.
    injection Hr as <-. cbn. split; [intros x []|reflexivity].
Qed.

Lemma analyze_outliers_sample_entries_witness :
  exists r,
    analyze_outliers (repeat (Num 5) 40 ++ repeat (Num 100) 11)
      (mkColumnMetadata "float" false None None)
      (mkAnalysisConfig (Num 1.5) (Num 0.05)) = Ok r /\
    outlier_count r = 11%nat /\
    List.length (outlier_values r) = 10%nat.
Proof.
  eexists. split; [vm_compute; reflexivity|]. split; [reflexivity|].
  refine (proj2 (analyze_outliers_sample_entries
                   (repeat (Num 5) 40 ++ repeat (Num 100) 11)
                   (mkColumnMetadata "float" false None None)
                   (mkAnalysisConfig (Num 1.5) (Num 0.05)) _ _)).
  vm_compute. reflexivity.
Defined.

(** ** More on the z-score detector *)

Lemma mask_select_In {A : Type} (l : list A) (mask : list bool) (x : A) :
  In x (mask_select l mask) -> In x l.
Proof.
  revert mask. induction l as [|y l IH]; intros [|b mask] H; cbn in H;
    try contradiction.
  destruct b.
  - destruct H as [->|H]; [now left|right; now apply (IH mask)].
  - right. now apply (IH mask).
Qed.

Lemma mask_select_length {A : Type} (l : list A) (mask : list bool) :
  (List.length (mask_select l mask) <= List.length l)%nat.
Proof.
  revert mask. induction l as [|y l IH]; intros [|b mask]; cbn; try lia.
  specialize (IH mask). destruct b; cbn; lia.
Qed.

(** X14. The z-score detector returns only non-missing entries of the
    series, never more than the series has, and none at all when the
    threshold is NaN. *)
Theorem zscore_outliers_are_entries (series : Series) (threshold : pyfloat) :
  (forall x, In x (detect_outliers_zscore series threshold) ->
             In x series /\ notna x = true) /\
  (List.length (detect_outliers_zscore series threshold) <= count series)%nat /\
  detect_outliers_zscore series NaN = [].
Proof.
  unfold detect_outliers_zscore.
  destruct (Nat.eqb (List.length (dropna series)) 0).
  - split; [intros x []|]. split; [cbn; lia|reflexivity].
  - split; [|split].
    + intros x Hx. apply mask_select_In in Hx.
      unfold dropna in Hx. now apply filter_In in Hx.
    + rewrite count_dropna. apply mask_select_length.
    + apply mask_select_none. apply Forall_map. apply Forall_forall.
      intros z _. reflexivity.
Qed.

Lemma zscore_outliers_are_entries_witness :
  detect_outliers_zscore [Num 5; NaN; Num 5; Num 5; Num 5; Num 100] (Num 1)
  = [Num 100] /\
  In (Num 100) [Num 5; NaN; Num 5; Num 5; Num 5; Num 100] /\
  notna (Num 100) = true.
Proof.
  split; [vm_compute; reflexivity|].
  apply (proj1 (zscore_outliers_are_entries
                  [Num 5; NaN; Num 5; Num 5; Num 5; Num 100] (Num 1))).
  vm_compute. left. reflexivity.
Defined.

(** ** An entry the IQR detector keeps *)





(** Two non-missing entries can both be flagged when the multiplier is
    small. *)
Example iqr_two_entries_both_flagged :
  fst (fst (detect_outliers_iqr [Num 0; Num 10] (Num 0.1))) = [Num 0; Num 10].
Proof. vm_compute. reflexivity. Qed.

(** * The detectors on doubles *)

Module DoublesFacts.
Import PrimFloat SpecFloat FloatOps FloatAxioms.
Import Doubles.
Local Open Scope float_scope.
Local Set Warnings "-inexact-float".

(** ** NaN and the order of doubles *)

Lemma is_nan_Prim2SF (x : float) : is_nan x = true -> Prim2SF x = S754_nan.
Proof. intro H. unfold Prim2SF. now rewrite H. Qed.

Lemma Prim2SF_is_nan (x : float) : Prim2SF x = S754_nan -> is_nan x = true.
Proof.
  unfold Prim2SF. destruct (is_nan x); [reflexivity|].
  destruct (is_zero x); [discriminate|].
  destruct (is_infinity x); [discriminate|].
  destruct (Z.frexp x) as [r e].
  destruct (shr_fexp prec emax (Uint63Axioms.to_Z (normfr_mantissa r))
              (Z.sub e prec) loc_Exact) as [shr e'].
  destruct (shr_m shr); discriminate.
Qed.


Lemma ltb_nan_l (t z : float) : is_nan z = true -> (z <? t) = false.
Proof.
  intro H. rewrite ltb_spec, (is_nan_Prim2SF z H). reflexivity.
Qed.


Lemma SFcompare_antisym (f g : spec_float) :
  f <> S754_nan -> g <> S754_nan ->
  SFcompare g f = option_map CompOpp (SFcompare f g).
Proof.
  intros Hf Hg.
  destruct f as [sf|sf| |sf mf ef], g as [sg|sg| |sg mg eg];
    try contradiction; cbn [SFcompare option_map];
    try (destruct sf; reflexivity); try (destruct sg; reflexivity);
    try (destruct sf, sg; reflexivity).
  destruct sf, sg; cbn [CompOpp]; try reflexivity;
    rewrite (Z.compare_antisym ef eg);
    destruct (Z.compare ef eg); cbn [CompOpp]; try reflexivity;
    rewrite (Pos.compare_cont_antisym mf mg Eq); cbn [CompOpp];
    try reflexivity; now rewrite CompOpp_involutive.
Qed.

(** Two doubles that are not NaN are comparable by [<=]. *)
Lemma leb_total (x y : float) :
  notna x = true -> notna y = true -> (x <=? y) = false -> (y <=? x) = true.
Proof.
  unfold notna. rewrite !negb_true_iff. intros Hx Hy.
  assert (Fx : Prim2SF x <> S754_nan).
  { intro E. apply Prim2SF_is_nan in E. congruence. }
  assert (Fy : Prim2SF y <> S754_nan).
  { intro E. apply Prim2SF_is_nan in E. congruence. }
  rewrite !leb_spec. unfold SFleb.
  rewrite (SFcompare_antisym _ _ Fx Fy).
  destruct (SFcompare (Prim2SF x) (Prim2SF y)) as [[| |]|] eqn:E;
    cbn; try congruence.
  destruct (Prim2SF x), (Prim2SF y); cbn in E; congruence.
Qed.

(** ** Sorting *)

Lemma insert_sorted_perm_double (x : float) (l : list float) :
  Permutation (insert_sorted x l) (x :: l).
Proof.
  induction l as [|y l IH]; cbn; [apply Permutation_refl|].
  destruct (x <=? y).
  - apply Permutation_refl.
  - apply perm_trans with (y :: x :: l); [now apply perm_skip|apply perm_swap].
Qed.

Lemma sort_perm_double (l : list float) : Permutation (sort l) l.
Proof.
  induction l as [|x l IH]; cbn; [apply perm_nil|].
  apply perm_trans with (x :: sort l);
    [apply insert_sorted_perm_double|now apply perm_skip].
Qed.

Lemma sort_length_double (l : list float) : List.length (sort l) = List.length l.
Proof. apply Permutation_length, sort_perm_double. Qed.

Lemma insert_sorted_ascending (x : float) (l : list float) :
  notna x = true -> Forall (fun y => notna y = true) l ->
  ascending l -> ascending (insert_sorted x l).
Proof.
  unfold ascending. intros Hx Hl Hs.
  induction l as [|y l IH]; cbn.
  - repeat constructor.
  - destruct (x <=? y) eqn:E.
    + constructor; [assumption|]. now constructor.
    + inversion Hl as [|? ? Hy Hl']; subst.
      inversion Hs as [|? ? Hs' Hhd]; subst.
      pose proof (leb_total x y Hx Hy E) as Hyx.
      constructor; [now apply IH|].
      destruct l as [|z l]; cbn.
      * now constructor.
      * destruct (x <=? z); constructor; [assumption|now inversion Hhd].
Qed.

Lemma sort_ascending (l : list float) :
  Forall (fun y => notna y = true) l -> ascending (sort l).
Proof.
  induction 1 as [|x l Hx Hl IH]; cbn; [constructor|].
  apply insert_sorted_ascending; try assumption.
  refine (Permutation_Forall _ Hl). apply Permutation_sym, sort_perm_double.
Qed.

Lemma dropna_notna (series : Series) :
  Forall (fun y => notna y = true) (dropna series).
Proof.
  apply Forall_forall. intros x Hx. unfold dropna in Hx.
  now apply filter_In in Hx.
Qed.

Lemma dropna_idempotent_double (series : Series) : dropna (dropna series) = dropna series.
Proof.
  unfold dropna. induction series as [|x l IH]; cbn; [reflexivity|].
  destruct (notna x) eqn:E; cbn; [rewrite E, IH|]; auto.
Qed.

(** ** The ranks of the quartiles *)

Lemma quartile_position (N : nat) (k : Z) :
  (0 <= k)%Z ->
  Qfloor (inject_Z (Z.of_nat N) * (k * 25 # 100))%Q
  = Z.of_nat ((Z.to_nat k * N) / 4) /\
  Qred (inject_Z (Z.of_nat N) * (k * 25 # 100)
        - inject_Z (Qfloor (inject_Z (Z.of_nat N) * (k * 25 # 100))))%Q
  = Qred (Z.of_nat ((Z.to_nat k * N) mod 4) # 4).
Proof.
  intro Hk.
  assert (Hf : Qfloor (inject_Z (Z.of_nat N) * (k * 25 # 100))%Q
               = Z.of_nat ((Z.to_nat k * N) / 4)).
  { unfold Qfloor, Qmult, inject_Z. cbn [Qnum Qden].
    rewrite Nat2Z.inj_div, Nat2Z.inj_mul, Z2Nat.id by assumption.
    change (Z.pos (1 * 100)) with (4 * 25)%Z.
    replace (Z.of_nat N * (k * 25))%Z with ((k * Z.of_nat N) * 25)%Z by ring.
    apply Z.div_mul_cancel_r; discriminate. }
  split; [exact Hf|].
  apply Qred_complete. rewrite Hf.
  unfold Qeq, Qminus, Qplus, Qopp, Qmult, inject_Z. cbn [Qnum Qden].
  rewrite Nat2Z.inj_div, Nat2Z.inj_mod, Nat2Z.inj_mul, Z2Nat.id by assumption.
  change (Z.of_nat 4) with 4%Z.
  pose proof (Z.div_mod (k * Z.of_nat N) 4 ltac:(discriminate)) as Hdm.
  change (Z.pos (1 * 100 * 1)) with 100%Z. change (Z.pos (1 * 100)) with 100%Z.
  lia.
Qed.

Lemma quarter_reduced (r : nat) :
  (r < 4)%nat -> of_Q (Qred (Z.of_nat r # 4)) = of_Q (Z.of_nat r # 4).
Proof.
  intro H. destruct r as [|[|[|[|r]]]]; try reflexivity. lia.
Qed.

(** The quantile at [k/4], from the closest ranks in ascending order. *)
Lemma quantile_quarters (series : Series) (k : Z) (x0 : float) (xs : list float) :
  (0 <= k)%Z ->
  sort (dropna series) = x0 :: xs ->
  let arr := x0 :: xs in
  let n := List.length arr in
  let lo := ((Z.to_nat k * (n - 1)) / 4)%nat in
  quantile (dropna series) (k * 25 # 100)
  = lerp (nth (Nat.min lo (n - 1)) arr nan)
         (nth (Nat.min (S lo) (n - 1)) arr nan)
         (of_Q (Z.of_nat ((Z.to_nat k * (n - 1)) mod 4) # 4)).
Proof.
  intros Hk Hs arr n lo. unfold quantile.
  rewrite dropna_idempotent_double, Hs. fold arr. fold n.
  destruct (quartile_position (n - 1) k Hk) as [Hf Hg].
  rewrite Hg, Hf, Nat2Z.id. fold lo.
  rewrite quarter_reduced by (apply Nat.mod_upper_bound; discriminate).
  assert (Hn : (0 < n)%nat) by (unfold n, arr; cbn; lia).
  rewrite (nth_indep arr x0 nan) by lia.
  rewrite (nth_indep arr x0 nan) by lia.
  reflexivity.
Qed.

(** ** The IQR detector on doubles *)

Lemma flagged_double (x lower upper : float) :
  (x <? lower) || (upper <? x) = true <->
  (x <? lower) = true \/ (upper <? x) = true.
Proof. apply orb_true_iff. Qed.

(** C2. On a series of doubles with a non-missing entry and any multiplier
    m (so for every m > 0), the IQR detector takes Q1 and Q3 by linear
    interpolation between the closest ranks of the non-missing entries in
    ascending order (ranks (n-1)/4 and 3(n-1)/4 and the next ones, at the
    fractions ((n-1) mod 4)/4 and (3(n-1) mod 4)/4), returns the bounds
    Q1 - m * IQR and Q3 + m * IQR with IQR = Q3 - Q1, all in double
    arithmetic, and returns as outliers the non-missing entries strictly
    below the lower or strictly above the upper bound, in the order of the
    series. *)
Theorem detect_outliers_iqr_doubles (series : Series) (m : float) :
  dropna series <> [] ->
  exists arr a1 b1 g1 a3 b3 g3 q1 q3 iqr lower upper outliers,
    Permutation arr (dropna series) /\
    ascending arr /\
    a1 = nth ((List.length arr - 1) / 4) arr nan /\
    b1 = nth (Nat.min (S ((List.length arr - 1) / 4)) (List.length arr - 1))
           arr nan /\
    g1 = of_Q (Z.of_nat ((List.length arr - 1) mod 4) # 4) /\
    a3 = nth ((3 * (List.length arr - 1)) / 4) arr nan /\
    b3 = nth (Nat.min (S ((3 * (List.length arr - 1)) / 4))
                (List.length arr - 1)) arr nan /\
    g3 = of_Q (Z.of_nat ((3 * (List.length arr - 1)) mod 4) # 4) /\
    q1 = (if 0.5 <=? g1 then b1 - (b1 - a1) * (1 - g1)
          else a1 + (b1 - a1) * g1) /\
    q3 = (if 0.5 <=? g3 then b3 - (b3 - a3) * (1 - g3)
          else a3 + (b3 - a3) * g3) /\
    iqr = q3 - q1 /\
    lower = q1 - m * iqr /\
    upper = q3 + m * iqr /\
    detect_outliers_iqr series m = (outliers, lower, upper) /\
    outliers = filter (fun x => (x <? lower) || (upper <? x)) (dropna series) /\
    (forall x, In x outliers <->
               In x (dropna series) /\
               ((x <? lower) = true \/ (upper <? x) = true)).
Proof.
  intro Hne.
  destruct (sort (dropna series)) as [|x0 xs] eqn:Hs.
  { exfalso. apply Hne. apply length_zero_iff_nil.
    rewrite <- sort_length_double, Hs. reflexivity. }
  pose proof (quantile_quarters series 1 x0 xs ltac:(discriminate) Hs) as H1.
  pose proof (quantile_quarters series 3 x0 xs ltac:(discriminate) Hs) as H3.
  cbv zeta in H1, H3.
  change (Z.to_nat 1) with 1%nat in H1. change (Z.to_nat 3) with 3%nat in H3.
  rewrite Nat.mul_1_l in H1.
  assert (Hlo1 : Nat.min ((List.length (x0 :: xs) - 1) / 4)
                   (List.length (x0 :: xs) - 1)
                 = ((List.length (x0 :: xs) - 1) / 4)%nat).
  { apply Nat.min_l. apply Nat.Div0.div_le_upper_bound. lia. }
  assert (Hlo3 : Nat.min ((3 * (List.length (x0 :: xs) - 1)) / 4)
                   (List.length (x0 :: xs) - 1)
                 = ((3 * (List.length (x0 :: xs) - 1)) / 4)%nat).
  { apply Nat.min_l. apply Nat.Div0.div_le_upper_bound. lia. }
  rewrite Hlo1 in H1. rewrite Hlo3 in H3.
  exists (x0 :: xs).
  do 12 eexists.
  split; [rewrite <- Hs; apply sort_perm_double|].
  split; [rewrite <- Hs; apply sort_ascending, dropna_notna|].
  do 11 (split; [reflexivity|]).
  split.
  - unfold detect_outliers_iqr.
    assert (Hlen : Nat.eqb (List.length (dropna series)) 0 = false).
    { apply Nat.eqb_neq. intro E. now apply length_zero_iff_nil in E. }
    rewrite Hlen.
    change (0.25%Q) with (1 * 25 # 100). change (0.75%Q) with (3 * 25 # 100).
    rewrite H1, H3, mask_select_map. unfold lerp. reflexivity.
  - split; [reflexivity|].
    intro x. rewrite filter_In, flagged_double. reflexivity.
Qed.

Lemma detect_outliers_iqr_doubles_witness :
  detect_outliers_iqr [2.5; 2.6; 2.5; 2.3] 1
  = ([2.6; 2.3], 2.3750000000000004, 2.5999999999999996) /\
  (forall x, In x [2.6; 2.3] ->
             (x <? 2.3750000000000004) = true \/
             (2.5999999999999996 <? x) = true).
Proof.
  assert (Hrun : detect_outliers_iqr [2.5; 2.6; 2.5; 2.3] 1
                 = ([2.6; 2.3], 2.3750000000000004, 2.5999999999999996)).
  { vm_compute. reflexivity. }
  split; [exact Hrun|].
  destruct (detect_outliers_iqr_doubles [2.5; 2.6; 2.5; 2.3] 1)
    as (arr & a1 & b1 & g1 & a3 & b3 & g3 & q1 & q3 & iqr & lower & upper
        & outliers & _ & _ & _ & _ & _ & _ & _ & _ & _ & _ & _ & _ & _
        & Hdet & _ & Hin).
  - discriminate.
  - rewrite Hrun in Hdet. injection Hdet as <- <- <-.
    intros x Hx. now apply Hin.
Defined.

(** The difference of the quartiles can overflow: the bounds are then
    infinite, or NaN with the multiplier 0, and nothing is flagged. *)
Example detect_outliers_iqr_overflow :
  detect_outliers_iqr [-1e308; -1e308; 1e308; 1e308] 1.5
  = ([], neg_infinity, infinity) /\
  detect_outliers_iqr [-1e308; -1e308; 1e308; 1e308] 0 = ([], nan, nan).
Proof. split; vm_compute; reflexivity. Qed.

(** ** The z-score detector on doubles *)




Lemma negative_below_abs (t z : float) :
  (t <? 0) = true -> (t <? abs z) = negb (is_nan z).
Proof.
  intro Ht. rewrite ltb_spec in Ht.
  change (Prim2SF 0) with (S754_zero false) in Ht.
  rewrite ltb_spec, abs_spec.
  destruct (is_nan z) eqn:Hz.
  - rewrite (is_nan_Prim2SF z Hz). unfold SFltb, SFcompare.
    now destruct (Prim2SF t).
  - assert (Fz : Prim2SF z <> S754_nan).
    { intro E. apply Prim2SF_is_nan in E. congruence. }
    unfold SFltb in *.
    destruct (Prim2SF t) as [st|st| |st mt et], (Prim2SF z) as [sz|sz| |sz mz ez];
      try contradiction; cbn in Ht |- *; try discriminate;
      destruct st; try discriminate; reflexivity.
Qed.

(** X15. With a threshold below 0, the z-score detector returns exactly
    the non-missing entries whose z-score is not NaN, whatever scipy's
    zscore computes: an absolute z-score that is a number is never below
    0. *)
Theorem zscore_negative_threshold_doubles
    (zscore : list float -> list float) (series : Series) (threshold : float) :
  (threshold <? 0) = true ->
  detect_outliers_zscore zscore series threshold
  = mask_select (dropna series)
      (map (fun z => negb (is_nan z)) (zscore (dropna series))).
Proof.
  intro Ht. unfold detect_outliers_zscore.
  destruct (dropna series) as [|x l] eqn:E; [reflexivity|].
  cbn [List.length Nat.eqb]. rewrite map_map. f_equal.
  apply map_ext. intro z. now apply negative_below_abs.
Qed.

Lemma zscore_negative_threshold_doubles_witness :
  detect_outliers_zscore zscore_isconst [1; nan; 2; 3] (-1) = [1; 2; 3] /\
  detect_outliers_zscore zscore_isconst [1; nan; 1; 1] (-1) = [].
Proof.
  split.
  - rewrite (zscore_negative_threshold_doubles zscore_isconst
               [1; nan; 2; 3] (-1)); [|reflexivity].
    vm_compute. reflexivity.
  - rewrite (zscore_negative_threshold_doubles zscore_isconst
               [1; nan; 1; 1] (-1)); [|reflexivity].
    vm_compute. reflexivity.
Defined.

End DoublesFacts.
